(** * sslyze.plugins.certificate_info.json_output

    A shallow embedding of the JSON projection of X.509 certificates done by
    the certificate-info plugin, and of the registration of its handlers into
    the generic serializer, together with the properties its specification
    states about them.

    The file has three layers:
    - [Py]: the pieces of the Python runtime the module relies on (exceptions,
      [str] of an integer, insertion-ordered dictionaries, [bytes.decode],
      [base64.b64encode], [datetime.strftime]);
    - [Crypto]: the boundary of the [cryptography] package the module reads
      (object identifiers, names, public keys, certificates, PEM armour);
    - the functions of [json_output.py] themselves, followed by the theorems. *)

From Stdlib Require Import ZArith NArith List String Ascii Lia Bool.
From Stdlib.Strings Require Import Byte.
From Stdlib Require Import DecimalString DecimalZ.
Import ListNotations.

Local Open Scope string_scope.
Local Open Scope list_scope.

(* ================================================================= *)
(** ** The Python runtime *)

Module Py.

(** Exceptions the modelled code can meet. *)
Inductive exn : Type :=
| AttributeError (obj attr : string)
| KeyError (key : string)
| TypeError (msg : string)
| ValueError (msg : string)
| UnicodeDecodeError (codec : string).

(** A computation either returns a value or raises. *)
Inductive outcome (A : Type) : Type :=
| Ok (a : A)
| Raise (e : exn).
Arguments Ok {A} a.
Arguments Raise {A} e.

Definition bind {A B} (m : outcome A) (k : A -> outcome B) : outcome B :=
  match m with
  | Ok a => k a
  | Raise e => Raise e
  end.

(** *** [str(int)] and [int(str)] *)

(** [str] of a Python integer: the canonical decimal rendering, of any
    magnitude, with a leading minus sign for a negative value. *)
Definition str_int (z : Z) : string := NilZero.string_of_int (Z.to_int z).

(** [int] of a decimal string, the inverse used to state exactness. *)
Definition int_of_str (s : string) : option Z :=
  option_map Z.of_int (NilZero.int_of_string s).

Definition is_digit (c : ascii) : bool :=
  let n := N_of_ascii c in (48 <=? n)%N && (n <=? 57)%N.

Fixpoint all_digits (s : string) : bool :=
  match s with
  | EmptyString => true
  | String c r => is_digit c && all_digits r
  end.

(** A decimal-digit string: one digit or more, and nothing else. *)
Definition is_decimal_digit_string (s : string) : bool :=
  negb (String.eqb s "") && all_digits s.

(** The rendering of an integer: digits, after a minus sign or not. *)
Definition is_decimal_rendering (s : string) : bool :=
  match s with
  | String c r =>
      if Ascii.eqb c "-" then is_decimal_digit_string r
      else is_decimal_digit_string s
  | EmptyString => false
  end.

(** *** Insertion-ordered dictionaries

    A [dict] keeps its entries in insertion order and holds a key at most
    once: assigning to a key that is present replaces the value in place,
    assigning to a new key appends an entry. *)
Section Dict.
Context {K V : Type}.
Variable eqb : K -> K -> bool.

Definition dict : Type := list (K * V).

Fixpoint dict_get (d : dict) (k : K) : option V :=
  match d with
  | [] => None
  | (k', v) :: r => if eqb k k' then Some v else dict_get r k
  end.

Fixpoint dict_set (d : dict) (k : K) (v : V) : dict :=
  match d with
  | [] => [(k, v)]
  | (k', v') :: r =>
      if eqb k k' then (k', v) :: r else (k', v') :: dict_set r k v
  end.

Definition dict_keys (d : dict) : list K := map fst d.

(** Building a dictionary from a display [{k1: v1, ...}]: the entries are
    assigned from left to right. *)
Definition dict_of_list (l : list (K * V)) : dict :=
  fold_left (fun d kv => dict_set d (fst kv) (snd kv)) l [].

Definition dict_count (d : dict) (k : K) : nat :=
  List.length (filter (fun kv => eqb k (fst kv)) d).
End Dict.
Arguments dict K V : clear implicits.

(** *** Values held by the dictionaries this module builds.  Python values are
    dynamically typed, so an integer could be stored as such; the generic
    serializer would then emit it as a JSON number. *)
#[local] Unset Elimination Schemes.
Inductive value : Type :=
| VStr (s : string)
| VInt (z : Z)
| VList (l : list value)
| VDict (d : list (string * value)).
#[local] Set Elimination Schemes.

Definition sdict : Type := dict string value.
Definition sget : sdict -> string -> option value := dict_get String.eqb.
Definition sset : sdict -> string -> value -> sdict := dict_set String.eqb.

(** [d[k]]: subscription raises [KeyError] on a missing key. *)
Definition getitem (d : sdict) (k : string) : outcome value :=
  match sget d k with
  | Some v => Ok v
  | None => Raise (KeyError k)
  end.

(** [d[k1][k2] = v]: the inner dictionary is the object stored under [k1], so
    the assignment is seen through [d]. *)
Definition setitem2 (d : sdict) (k1 k2 : string) (v : value) : outcome sdict :=
  bind (getitem d k1) (fun inner =>
    match inner with
    | VDict i => Ok (sset d k1 (VDict (sset i k2 v)))
    | _ => Raise (TypeError "object does not support item assignment")
    end).

(** [d[k1][k2]], when both subscriptions succeed. *)
Definition sget2 (d : sdict) (k1 k2 : string) : option value :=
  match sget d k1 with
  | Some (VDict i) => sget i k2
  | _ => None
  end.

(** Truth value of a list: non-empty. *)
Definition truthy {A} (l : list A) : bool :=
  match l with [] => false | _ :: _ => true end.

(** *** [bytes] and [bytes.decode]

    A [bytes] object is a list of bytes.  A [str] is held as the string of
    its UTF-8 code units, so decoding checks the input and keeps it. *)
Definition bytes : Type := list byte.

Definition LF : byte := x0a.
Definition DASH : byte := "-"%byte.

Definition is_ascii_byte (b : byte) : bool := (Byte.to_N b <? 128)%N.

Definition decode_ascii (b : bytes) : outcome string :=
  if forallb is_ascii_byte b then Ok (string_of_list_byte b)
  else Raise (UnicodeDecodeError "ascii").

Definition encode_ascii (s : string) : bytes := list_byte_of_string s.

Definition in_range (lo hi : N) (b : byte) : bool :=
  let n := Byte.to_N b in (lo <=? n)%N && (n <=? hi)%N.

(** Well-formed UTF-8 (Unicode standard, table 3-7). *)
Fixpoint utf8_valid (l : bytes) : bool :=
  match l with
  | [] => true
  | b0 :: r0 =>
      if in_range 0 127 b0 then utf8_valid r0 else
      match r0 with
      | [] => false
      | b1 :: r1 =>
          if in_range 194 223 b0 then in_range 128 191 b1 && utf8_valid r1 else
          match r1 with
          | [] => false
          | b2 :: r2 =>
              let third := in_range 128 191 b2 in
              if in_range 224 224 b0 then in_range 160 191 b1 && third && utf8_valid r2
              else if in_range 237 237 b0 then in_range 128 159 b1 && third && utf8_valid r2
              else if in_range 225 239 b0 then in_range 128 191 b1 && third && utf8_valid r2
              else
              match r2 with
              | [] => false
              | b3 :: r3 =>
                  let fourth := in_range 128 191 b3 in
                  if in_range 240 240 b0 then in_range 144 191 b1 && third && fourth && utf8_valid r3
                  else if in_range 241 243 b0 then in_range 128 191 b1 && third && fourth && utf8_valid r3
                  else if in_range 244 244 b0 then in_range 128 143 b1 && third && fourth && utf8_valid r3
                  else false
              end
          end
      end
  end.

Definition decode_utf8 (b : bytes) : outcome string :=
  if utf8_valid b then Ok (string_of_list_byte b)
  else Raise (UnicodeDecodeError "utf-8").

(** *** [base64.b64encode] *)

Definition b64_alphabet : string :=
  "ABCDEFGHIJKLMNOPQRSTUVWXYZabcdefghijklmnopqrstuvwxyz0123456789+/".

Definition b64_pad : byte := "="%byte.

Definition b64_char (n : N) : byte :=
  nth (N.to_nat n) (list_byte_of_string b64_alphabet) b64_pad.

(** Three bytes give four characters; a last group of one or two bytes is
    completed with ['=']. *)
Fixpoint b64encode (l : bytes) : bytes :=
  match l with
  | [] => []
  | [a] =>
      let x := Byte.to_N a in
      [b64_char (x / 4); b64_char ((x mod 4) * 16); b64_pad; b64_pad]
  | [a; b] =>
      let x := Byte.to_N a in
      let y := Byte.to_N b in
      [b64_char (x / 4); b64_char ((x mod 4) * 16 + y / 16);
       b64_char ((y mod 16) * 4); b64_pad]
  | a :: b :: c :: r =>
      let x := Byte.to_N a in
      let y := Byte.to_N b in
      let z := Byte.to_N c in
      b64_char (x / 4) :: b64_char ((x mod 4) * 16 + y / 16)
      :: b64_char ((y mod 16) * 4 + z / 64) :: b64_char (z mod 64)
      :: b64encode r
  end%N.

Fixpoint index_of (c : byte) (l : bytes) (i : N) : option N :=
  match l with
  | [] => None
  | x :: r => if Byte.eqb c x then Some i else index_of c r (N.succ i)
  end.

Definition b64_index (c : byte) : option N :=
  index_of c (list_byte_of_string b64_alphabet) 0.

Definition byte_of_N (n : N) : byte :=
  match Byte.of_N n with Some b => b | None => "000"%byte end.

(** The decoder of base-64 text without line breaks. *)
Fixpoint b64decode (l : bytes) : option bytes :=
  match l with
  | [] => Some []
  | c1 :: c2 :: c3 :: c4 :: r =>
      match b64_index c1, b64_index c2 with
      | Some s1, Some s2 =>
          let a := byte_of_N (s1 * 4 + s2 / 16) in
          match r, Byte.eqb c4 b64_pad with
          | [], true =>
              if Byte.eqb c3 b64_pad then Some [a]
              else match b64_index c3 with
                   | Some s3 =>
                       Some [a; byte_of_N ((s2 mod 16) * 16 + s3 / 4)]
                   | None => None
                   end
          | _, _ =>
              match b64_index c3, b64_index c4, b64decode r with
              | Some s3, Some s4, Some t =>
                  Some (a :: byte_of_N ((s2 mod 16) * 16 + s3 / 4)
                          :: byte_of_N ((s3 mod 4) * 64 + s4) :: t)
              | _, _, _ => None
              end
          end
      | _, _ => None
      end
  | _ => None
  end%N.

(** *** [datetime] and [datetime.strftime] *)

(** [tzinfo] is the UTC offset in minutes of an aware value, [None] for a
    naive one. *)
Record datetime : Type := {
  year : N;
  month : N;
  day : N;
  hour : N;
  minute : N;
  second : N;
  microsecond : N;
  tzinfo : option Z
}.

Definition is_leap (y : N) : bool :=
  ((y mod 4 =? 0) && (negb (y mod 100 =? 0) || (y mod 400 =? 0)))%N.

Definition days_in_month (y m : N) : N :=
  (if m =? 2 then (if is_leap y then 29 else 28)
   else if (m =? 4) || (m =? 6) || (m =? 9) || (m =? 11) then 30
   else 31)%N.

(** The ranges the [datetime] constructor enforces. *)
Definition datetime_valid (d : datetime) : bool :=
  ((1 <=? year d) && (year d <=? 9999)
   && (1 <=? month d) && (month d <=? 12)
   && (1 <=? day d) && (day d <=? days_in_month (year d) (month d))
   && (hour d <? 24) && (minute d <? 60) && (second d <? 60)
   && (microsecond d <? 1000000))%N.

Fixpoint zeros (n : nat) : string :=
  match n with O => "" | S k => String "0" (zeros k) end.

(** Left padding with zeros up to [width] characters. *)
Definition zfill (width : nat) (s : string) : string :=
  zeros (width - String.length s) ++ s.

Definition str_N (n : N) : string := str_int (Z.of_N n).

(** [%z]: empty for a naive value, [+HHMM] or [-HHMM] otherwise. *)
Definition utcoffset_string (tz : option Z) : string :=
  match tz with
  | None => ""
  | Some off =>
      let a := Z.abs_N off in
      (if (off <? 0)%Z then "-" else "+")
      ++ zfill 2 (str_N (a / 60)) ++ zfill 2 (str_N (a mod 60))
  end.

(** One conversion specification.  The fields are written by the C library
    of the platform: month, day, hour, minute and second on two digits, and
    for [%Y] the year in decimal, which on Linux is not padded: the year
    999 is written [999].  From the year 1000 on, the C libraries that pad
    the year to four digits write the same text. *)
Definition directive (c : ascii) (d : datetime) : string :=
  if Ascii.eqb c "Y" then str_N (year d)
  else if Ascii.eqb c "m" then zfill 2 (str_N (month d))
  else if Ascii.eqb c "d" then zfill 2 (str_N (day d))
  else if Ascii.eqb c "H" then zfill 2 (str_N (hour d))
  else if Ascii.eqb c "M" then zfill 2 (str_N (minute d))
  else if Ascii.eqb c "S" then zfill 2 (str_N (second d))
  else if Ascii.eqb c "f" then zfill 6 (str_N (microsecond d))
  else if Ascii.eqb c "z" then utcoffset_string (tzinfo d)
  else if Ascii.eqb c "%" then "%"
  else String "%" (String c "").

Fixpoint strftime (d : datetime) (format : string) : string :=
  match format with
  | EmptyString => ""
  | String c r =>
      if Ascii.eqb c "%" then
        match r with
        | EmptyString => "%"
        | String c' r' => directive c' d ++ strftime d r'
        end
      else String c (strftime d r)
  end.

(** The shape [YYYY-MM-DD HH:MM:SS]: nineteen characters, digits and the
    four separators, nothing after the seconds. *)
Definition is_timestamp_shape (s : string) : bool :=
  match list_ascii_of_string s with
  | [y1; y2; y3; y4; s1; m1; m2; s2; d1; d2; s3; h1; h2; s4; n1; n2; s5; c1; c2] =>
      forallb is_digit [y1; y2; y3; y4; m1; m2; d1; d2; h1; h2; n1; n2; c1; c2]
      && Ascii.eqb s1 "-" && Ascii.eqb s2 "-" && Ascii.eqb s3 " "
      && Ascii.eqb s4 ":" && Ascii.eqb s5 ":"
  | _ => false
  end.

Definition timestamp_format : string := "%Y-%m-%d %H:%M:%S".

(** The text of a timestamp to the second: the year as it is, the other
    fields on two digits. *)
Definition timestamp_text (t : datetime) : string :=
  str_N (year t) ++ "-" ++ zfill 2 (str_N (month t)) ++ "-"
  ++ zfill 2 (str_N (day t)) ++ " " ++ zfill 2 (str_N (hour t)) ++ ":"
  ++ zfill 2 (str_N (minute t)) ++ ":" ++ zfill 2 (str_N (second t)).

(** *** Auxiliary predicates *)

Definition option_N_eqb (o : option N) (n : N) : bool :=
  match o with Some m => N.eqb m n | None => false end.

(** What is used of a character of the base-64 alphabet: it has an index, it
    is plain ASCII, and it is neither the padding, a dash nor a line feed. *)
Definition b64_char_ok (n : N) : bool :=
  let c := b64_char n in
  option_N_eqb (b64_index c) n && is_ascii_byte c
  && negb (Byte.eqb c b64_pad) && negb (Byte.eqb c DASH)
  && negb (Byte.eqb c LF).

(** Base-64 text: plain ASCII without dash or line feed. *)
Definition is_b64_text_byte (c : byte) : bool :=
  is_ascii_byte c && negb (Byte.eqb c DASH) && negb (Byte.eqb c LF).

Definition two_digits (s : string) : bool :=
  match s with
  | String a (String b EmptyString) => is_digit a && is_digit b
  | _ => false
  end.

Definition four_digits (s : string) : bool :=
  match s with
  | String a (String b r) => is_digit a && is_digit b && two_digits r
  | _ => false
  end.

End Py.

(* ================================================================= *)
(** ** The boundary of the [cryptography] package *)

Module Crypto.
Import Py.

(** [cryptography.x509.oid.ObjectIdentifier]: the object keeps the dotted
    string it was built from and gives it back as [dotted_string]. *)
Record ObjectIdentifier : Type := { dotted_string : string }.

(** The dotted rendering of a sequence of arcs, which is how the identifiers
    found in a certificate are built. *)
Definition dotted (arcs : list N) : string :=
  String.concat "." (map str_N arcs).

Definition oid_of_arcs (arcs : list N) : ObjectIdentifier :=
  {| dotted_string := dotted arcs |}.

(** [x509.Name], read here only through [rfc4514_string()]. *)
Record Name : Type := { rfc4514_string : string }.

(** [hashes.HashAlgorithm]; [hash_name] is its attribute [name]. *)
Record HashAlgorithm : Type := { hash_name : string }.

(** [ec.EllipticCurve]; the fields are its attributes [name] and [key_size]. *)
Record EllipticCurve : Type := {
  curve_name : string;
  curve_key_size : N
}.

(** The public keys a certificate can carry.  Sizes are bit counts; the
    numbers of a key are integers read from its encoding. *)
Inductive KeyVariant : Type :=
| EllipticCurvePublicKey (curve : EllipticCurve) (x y : Z)
| RSAPublicKey (key_size : N) (e n : Z)
| DSAPublicKey (key_size : N) (y p q g : Z)
| Ed25519PublicKey (raw : bytes)
| Ed448PublicKey (raw : bytes).

(** A public-key object: its behaviour is fixed by the variant, while
    [class_name] is [__class__.__name__], the name of whichever class
    implements that variant. *)
Record PublicKey : Type := {
  class_name : string;
  variant : KeyVariant
}.

Inductive PublicNumbers : Type :=
| RSAPublicNumbers (e n : Z)
| DSAPublicNumbers (y p q g : Z)
| EllipticCurvePublicNumbers (x y : Z) (curve : EllipticCurve).

(** [isinstance(key, EllipticCurvePublicKey)]. *)
Definition is_EllipticCurvePublicKey (key : PublicKey) : bool :=
  match variant key with
  | EllipticCurvePublicKey _ _ _ => true
  | _ => false
  end.

(** Attribute access: an attribute a key does not have raises. *)
Definition curve_of (key : PublicKey) : outcome EllipticCurve :=
  match variant key with
  | EllipticCurvePublicKey c _ _ => Ok c
  | _ => Raise (AttributeError (class_name key) "curve")
  end.

Definition key_size_of (key : PublicKey) : outcome N :=
  match variant key with
  | EllipticCurvePublicKey c _ _ => Ok (curve_key_size c)
  | RSAPublicKey s _ _ => Ok s
  | DSAPublicKey s _ _ _ _ => Ok s
  | Ed25519PublicKey _ | Ed448PublicKey _ =>
      Raise (AttributeError (class_name key) "key_size")
  end.

Definition public_numbers (key : PublicKey) : outcome PublicNumbers :=
  match variant key with
  | EllipticCurvePublicKey c x y => Ok (EllipticCurvePublicNumbers x y c)
  | RSAPublicKey _ e n => Ok (RSAPublicNumbers e n)
  | DSAPublicKey _ y p q g => Ok (DSAPublicNumbers y p q g)
  | Ed25519PublicKey _ | Ed448PublicKey _ =>
      Raise (AttributeError (class_name key) "public_numbers")
  end.

Definition e_of (numbers : PublicNumbers) : outcome Z :=
  match numbers with
  | RSAPublicNumbers e _ => Ok e
  | DSAPublicNumbers _ _ _ _ => Raise (AttributeError "DSAPublicNumbers" "e")
  | EllipticCurvePublicNumbers _ _ _ =>
      Raise (AttributeError "EllipticCurvePublicNumbers" "e")
  end.

(** The native certificate: its DER encoding and what the accessors of the
    package return for it.  [signature_hash_algorithm] is [None] for a
    signature scheme without a separate hash.  A value of this type stands
    for a certificate on which these accessors return: a certificate whose
    signature algorithm or key type the installed package does not know,
    for which they raise [UnsupportedAlgorithm], has no value here. *)
Record X509 : Type := {
  der : bytes;
  subject : Name;
  issuer : Name;
  serial_number : Z;
  not_valid_before : datetime;
  not_valid_after : datetime;
  signature_hash_algorithm : option HashAlgorithm;
  public_key : PublicKey
}.

(** [x509.Certificate]: a Python object, with an identity, wrapping a native
    certificate. *)
Record Certificate : Type := {
  object_id : N;
  x509 :> X509
}.

(** [obj.name] on the outcome of [signature_hash_algorithm]. *)
Definition name_of (h : option HashAlgorithm) : outcome string :=
  match h with
  | Some a => Ok (hash_name a)
  | None => Raise (AttributeError "NoneType" "name")
  end.

(** *** PEM armour *)

Inductive Encoding : Type := PEM | DER.

Definition pem_begin : bytes := list_byte_of_string "-----BEGIN CERTIFICATE-----".
Definition pem_end : bytes := list_byte_of_string "-----END CERTIFICATE-----".

(** Lines of 64 characters, each closed by a line feed; [col] is the number
    of characters already on the current line. *)
Fixpoint wrap_lines (col : nat) (l : bytes) : bytes :=
  match l with
  | [] => match col with O => [] | S _ => [LF] end
  | c :: r =>
      if Nat.eqb col 64 then LF :: c :: wrap_lines 1 r
      else c :: wrap_lines (S col) r
  end.

Definition pem_encode (d : bytes) : bytes :=
  pem_begin ++ [LF] ++ wrap_lines 0 (b64encode d) ++ pem_end ++ [LF].

Fixpoint strip_prefix (p l : bytes) : option bytes :=
  match p, l with
  | [], _ => Some l
  | a :: p', b :: l' => if Byte.eqb a b then strip_prefix p' l' else None
  | _ :: _, [] => None
  end.

(** The text up to the first dash, and what follows. *)
Fixpoint span_body (l : bytes) : bytes * bytes :=
  match l with
  | [] => ([], [])
  | c :: r =>
      if Byte.eqb c DASH then ([], l)
      else let (b, t) := span_body r in (c :: b, t)
  end.

Definition pem_decode (data : bytes) : option bytes :=
  match strip_prefix (pem_begin ++ [LF]) data with
  | None => None
  | Some rest =>
      let (body, tail) := span_body rest in
      match strip_prefix pem_end tail with
      | None => None
      | Some _ => b64decode (filter (fun c => negb (Byte.eqb c LF)) body)
      end
  end.

(** [Certificate.public_bytes(encoding)]. *)
Definition public_bytes (c : X509) (encoding : Encoding) : bytes :=
  match encoding with
  | PEM => pem_encode (der c)
  | DER => der c
  end.

(** *** Loading a certificate *)

(** A backend is what turns a DER encoding into a native certificate;
    [load_failure] is the text of the error it reports for an encoding it
    cannot read, which differs between versions of the package. *)
Record Backend : Type := {
  d2i_X509 : bytes -> option X509;
  load_failure : string
}.

(** Loading allocates a new Python object; the state is the next free
    object identity. *)
Definition heap : Type := N.
Definition M (A : Type) : Type := heap -> outcome A * heap.

Definition load_der_x509_certificate (data : bytes) (backend : Backend)
  : M Certificate :=
  fun h =>
    match d2i_X509 backend data with
    | Some c => (Ok {| object_id := h; x509 := c |}, N.succ h)
    | None => (Raise (ValueError (load_failure backend)), h)
    end.

Definition load_pem_x509_certificate (data : bytes) (backend : Backend)
  : M Certificate :=
  fun h =>
    match pem_decode data with
    | Some d => load_der_x509_certificate d backend h
    | None => (Raise (ValueError (load_failure backend)), h)
    end.

(** A certificate as the parser delivers it: parsing its encoding gives the
    very same native certificate. *)
Definition parsed (backend : Backend) (c : X509) : Prop :=
  d2i_X509 backend (der c) = Some c.

End Crypto.

(* ================================================================= *)
(** ** [json_output.py] *)

Import Py Crypto.

Declare Scope py_scope.
Delimit Scope py_scope with py.
Notation "x <- m ;; k" := (bind m (fun x => k))
  (at level 61, m at next level, right associativity) : py_scope.
Local Open Scope py_scope.

(** *** The process-wide state touched by registration *)

(** Classes used as dispatch keys. *)
Inductive cls : Type :=
| C_object
| C_ObjectIdentifier
| C_Certificate
| C_other (qualname : string).

Definition cls_eqb (a b : cls) : bool :=
  match a, b with
  | C_object, C_object => true
  | C_ObjectIdentifier, C_ObjectIdentifier => true
  | C_Certificate, C_Certificate => true
  | C_other x, C_other y => String.eqb x y
  | _, _ => false
  end.

(** Function objects.  The two projectors are module-level functions; the
    copy method is defined inside the registration function, so each call
    creates a new function object with the same code. *)
Inductive func : Type :=
| F_oid_to_json
| F_certificate_to_json
| F_deepcopy_method_for_x509_certificate (closure : N)
| F_other (qualname : string).

(** The registry of [object_to_json], the attributes set on the class
    [_Certificate], and the number of function objects created so far. *)
Record process : Type := {
  registry : dict cls func;
  _Certificate_attrs : dict string func;
  next_closure : N
}.

(** The class a function is registered for: the annotation of its first
    parameter. *)
Definition first_annotation (f : func) : option cls :=
  match f with
  | F_oid_to_json => Some C_ObjectIdentifier
  | F_certificate_to_json => Some C_Certificate
  | _ => None
  end.

(** Modelled from the spec: [object_to_json] of [sslyze.cli.json_output],
    whose source is not part of this module.  It is a type-keyed extension
    point that accepts (type, function) pairs, and its table overwrites on a
    duplicate key. *)
Definition object_to_json_register (f : func) (p : process) : outcome process :=
  match first_annotation f with
  | Some c =>
      Ok {| registry := dict_set cls_eqb (registry p) c f;
            _Certificate_attrs := _Certificate_attrs p;
            next_closure := next_closure p |}
  | None => Raise (TypeError "Invalid first argument to register()")
  end.

Section Source.

(** The two utilities of [certificate_utils] and the default backend are
    taken as they are given. *)
Variable get_public_key_sha256 : Certificate -> bytes.
Variable extract_dns_subject_alternative_names : Certificate -> list string.
Variable default_backend : Backend.

Definition _deepcopy_method_for_x509_certificate {Memo : Type}
    (inner_self : Certificate) (memo : Memo) : M Certificate :=
  load_pem_x509_certificate (public_bytes inner_self PEM) default_backend.

Definition register_json_serializer_functions (p : process) : outcome process :=
  p <- object_to_json_register F_oid_to_json p ;;
  p <- object_to_json_register F_certificate_to_json p ;;
  let method := F_deepcopy_method_for_x509_certificate (next_closure p) in
  Ok {| registry := registry p;
        _Certificate_attrs :=
          dict_set String.eqb (_Certificate_attrs p) "__deepcopy__" method;
        next_closure := N.succ (next_closure p) |}.

Definition _oid_to_json (obj : ObjectIdentifier) : string :=
  dotted_string obj.

Definition _certificate_to_json (certificate : Certificate) : outcome sdict :=
  as_pem <- decode_ascii (public_bytes certificate PEM) ;;
  hpkp_pin <- decode_utf8 (b64encode (get_public_key_sha256 certificate)) ;;
  signatureAlgorithm <- name_of (signature_hash_algorithm certificate) ;;
  let result := dict_of_list String.eqb
    [ ("as_pem", VStr as_pem);
      ("hpkp_pin", VStr hpkp_pin);
      ("subject", VStr (rfc4514_string (subject certificate)));
      ("issuer", VStr (rfc4514_string (issuer certificate)));
      ("serialNumber", VStr (str_int (serial_number certificate)));
      ("notBefore",
       VStr (strftime (not_valid_before certificate) "%Y-%m-%d %H:%M:%S"));
      ("notAfter",
       VStr (strftime (not_valid_after certificate) "%Y-%m-%d %H:%M:%S"));
      ("signatureAlgorithm", VStr signatureAlgorithm);
      ("publicKey",
       VDict (dict_of_list String.eqb
         [("algorithm", VStr (class_name (public_key certificate)))])) ] in
  let dns_alt_names := extract_dns_subject_alternative_names certificate in
  let result :=
    if truthy dns_alt_names then
      sset result "subjectAlternativeName"
        (VDict (dict_of_list String.eqb
           [("DNS", VList (map VStr dns_alt_names))]))
    else result in
  let public_key := public_key certificate in
  if is_EllipticCurvePublicKey public_key then
    curve <- curve_of public_key ;;
    result <- setitem2 result "publicKey" "size"
                (VStr (str_N (curve_key_size curve))) ;;
    curve <- curve_of public_key ;;
    setitem2 result "publicKey" "curve" (VStr (curve_name curve))
  else
    key_size <- key_size_of public_key ;;
    result <- setitem2 result "publicKey" "size" (VStr (str_N key_size)) ;;
    numbers <- public_numbers public_key ;;
    e <- e_of numbers ;;
    setitem2 result "publicKey" "exponent" (VStr (str_int e)).

(** *** What the registered functions are used for *)

(** Objects the generic serializer can meet. *)
Inductive pyobject : Type :=
| ObjOid (o : ObjectIdentifier)
| ObjCertificate (c : Certificate).

Definition class_of (o : pyobject) : cls :=
  match o with
  | ObjOid _ => C_ObjectIdentifier
  | ObjCertificate _ => C_Certificate
  end.

Definition call_handler (f : func) (o : pyobject) : outcome value :=
  match f, o with
  | F_oid_to_json, ObjOid oid => Ok (VStr (_oid_to_json oid))
  | F_certificate_to_json, ObjCertificate c =>
      d <- _certificate_to_json c ;; Ok (VDict d)
  | _, _ => Raise (TypeError "unexpected argument")
  end.

(** Dispatch of [object_to_json] on the class of its argument. *)
Definition object_to_json (p : process) (o : pyobject) : outcome value :=
  match dict_get cls_eqb (registry p) (class_of o) with
  | Some f => call_handler f o
  | None => Raise (TypeError "object is not JSON serializable")
  end.

(** [copy.deepcopy] of a certificate that the memo does not hold yet, as
    when a dataclass is converted: it calls the [__deepcopy__] found on the
    class, and fails without one, on the native handle inside the
    object. *)
Definition deepcopy {Memo : Type} (p : process) (c : Certificate)
    (memo : Memo) : M Certificate :=
  match dict_get String.eqb (_Certificate_attrs p) "__deepcopy__" with
  | Some (F_deepcopy_method_for_x509_certificate _) =>
      _deepcopy_method_for_x509_certificate c memo
  | Some _ => fun h => (Raise (TypeError "object is not callable"), h)
  | None =>
      fun h => (Raise (TypeError "cannot pickle '_cffi_backend.FFI' object"), h)
  end.

(** Registration called [n] times in a row. *)
Fixpoint register_times (n : nat) (p : process) : outcome process :=
  match n with
  | O => Ok p
  | S k => p <- register_json_serializer_functions p ;; register_times k p
  end.

End Source.

(** *** Notions used to state the properties *)

(** The keys every projection has, in the order of the display. *)
Definition mandatory_keys : list string :=
  ["as_pem"; "hpkp_pin"; "subject"; "issuer"; "serialNumber"; "notBefore";
   "notAfter"; "signatureAlgorithm"; "publicKey"].

(** The size and the variant-specific entry of a key that has them: the
    curve of an elliptic-curve key, the exponent of an RSA key. *)
Definition described_key (key : PublicKey) : option (N * (string * value)) :=
  match variant key with
  | EllipticCurvePublicKey c _ _ =>
      Some (curve_key_size c, ("curve", VStr (curve_name c)))
  | RSAPublicKey s e _ => Some (s, ("exponent", VStr (str_int e)))
  | _ => None
  end.

(** The certificates the projector has an answer for. *)
Definition projects (c : X509) : bool :=
  match signature_hash_algorithm c, described_key (public_key c) with
  | Some _, Some _ => true
  | _, _ => false
  end.

(** A field of the mapping a call returned, if it returned one. *)
Definition field (m : outcome sdict) (k : string) : option value :=
  match m with
  | Ok d => sget d k
  | Raise _ => None
  end.

(* ================================================================= *)
(** ** Sample data *)

Module Samples.

Definition sha256_of_sample (c : Certificate) : bytes :=
  firstn 32 (der c ++ repeat x00 32).

(** Stand-in for the extraction utility: the sample certificates issued to
    [example.com] carry two DNS names, the others none. *)
Definition dns_names_of_sample (c : Certificate) : list string :=
  if String.eqb (rfc4514_string (subject c)) "CN=example.com"
  then ["example.com"; "www.example.com"] else [].

Definition jan_1_2020 : datetime :=
  {| year := 2020; month := 1; day := 1; hour := 0; minute := 0; second := 0;
     microsecond := 0; tzinfo := None |}.

Definition mar_9_2021 : datetime :=
  {| year := 2021; month := 3; day := 9; hour := 23; minute := 59; second := 7;
     microsecond := 0; tzinfo := None |}.

Definition sha256 : HashAlgorithm := {| hash_name := "sha256" |}.
Definition secp256r1 : EllipticCurve :=
  {| curve_name := "secp256r1"; curve_key_size := 256 |}.

Definition rsa_key : PublicKey :=
  {| class_name := "_RSAPublicKey";
     variant := RSAPublicKey 2048 65537 (2 ^ 2047 + 1) |}.

Definition ec_key : PublicKey :=
  {| class_name := "_EllipticCurvePublicKey";
     variant := EllipticCurvePublicKey secp256r1 5 7 |}.

Definition dsa_key : PublicKey :=
  {| class_name := "_DSAPublicKey"; variant := DSAPublicKey 2048 4 23 11 2 |}.

Definition ed25519_key : PublicKey :=
  {| class_name := "_Ed25519PublicKey"; variant := Ed25519PublicKey (repeat x01 32) |}.

Definition sample_x509 (tag : byte) (cn : string) (serial : Z) (key : PublicKey) : X509 :=
  {| der := [x30; x82; x01; tag; x30; x0d; xff; x00; x2d];
     subject := {| rfc4514_string := cn |};
     issuer := {| rfc4514_string := "CN=Sample CA,O=Sample" |};
     serial_number := serial;
     not_valid_before := jan_1_2020;
     not_valid_after := mar_9_2021;
     signature_hash_algorithm := Some sha256;
     public_key := key |}.

(** A serial number that does not fit in 64 bits. *)
Definition rsa_x509 : X509 :=
  sample_x509 x01 "CN=example.com" (2 ^ 64 + 1) rsa_key.
Definition ec_x509 : X509 := sample_x509 x02 "CN=ec.test" 4660 ec_key.
Definition dsa_x509 : X509 := sample_x509 x03 "CN=dsa.test" 7 dsa_key.
Definition ed25519_x509 : X509 := sample_x509 x04 "CN=ed.test" 8 ed25519_key.
Definition negative_serial_x509 : X509 :=
  sample_x509 x05 "CN=negative.test" (-1) rsa_key.

(** A certificate whose validity starts in the year 999. *)
Definition jan_1_999 : datetime :=
  {| year := 999; month := 1; day := 1; hour := 0; minute := 0; second := 0;
     microsecond := 0; tzinfo := None |}.

Definition year_999_cert : Certificate :=
  {| object_id := 6;
     x509 :=
       {| der := [x30; x82; x01; x07];
          subject := {| rfc4514_string := "CN=old.test" |};
          issuer := {| rfc4514_string := "CN=Sample CA,O=Sample" |};
          serial_number := 11;
          not_valid_before := jan_1_999;
          not_valid_after := jan_1_2020;
          signature_hash_algorithm := Some sha256;
          public_key := rsa_key |} |}.

(** The same RSA key held by an object of another class. *)
Definition rsa_x509_other_class : X509 :=
  sample_x509 x06 "CN=example.com" (2 ^ 64 + 1)
    {| class_name := "RSAPublicKeyWithSerialization"; variant := variant rsa_key |}.

Definition samples : list X509 :=
  [rsa_x509; ec_x509; dsa_x509; ed25519_x509; negative_serial_x509;
   rsa_x509_other_class].

Definition bytes_eqb (a b : bytes) : bool :=
  if list_eq_dec Byte.byte_eq_dec a b then true else false.

(** A backend that knows the sample certificates. *)
Definition sample_backend : Backend :=
  {| d2i_X509 := fun data => find (fun c => bytes_eqb (der c) data) samples;
     load_failure := "Unable to load certificate" |}.

Definition cert (id : N) (c : X509) : Certificate :=
  {| object_id := id; x509 := c |}.

Definition rsa_cert : Certificate := cert 0 rsa_x509.
Definition ec_cert : Certificate := cert 1 ec_x509.
Definition dsa_cert : Certificate := cert 2 dsa_x509.
Definition ed25519_cert : Certificate := cert 3 ed25519_x509.
Definition negative_serial_cert : Certificate := cert 4 negative_serial_x509.
Definition rsa_cert_other_class : Certificate := cert 5 rsa_x509_other_class.

Definition to_json : Certificate -> outcome sdict :=
  _certificate_to_json sha256_of_sample dns_names_of_sample.

(** The mappings expected for the samples. *)
Definition sample_json (pem pin cn serial : string) (key : list (string * value))
    (san : list (string * value)) : sdict :=
  [ ("as_pem", VStr pem);
    ("hpkp_pin", VStr pin);
    ("subject", VStr cn);
    ("issuer", VStr "CN=Sample CA,O=Sample");
    ("serialNumber", VStr serial);
    ("notBefore", VStr "2020-01-01 00:00:00");
    ("notAfter", VStr "2021-03-09 23:59:07");
    ("signatureAlgorithm", VStr "sha256");
    ("publicKey", VDict key) ] ++ san.

Definition example_com_san : list (string * value) :=
  [("subjectAlternativeName",
    VDict [("DNS", VList [VStr "example.com"; VStr "www.example.com"])])].

Definition rsa_json : sdict :=
  sample_json
    "-----BEGIN CERTIFICATE-----
MIIBATAN/wAt
-----END CERTIFICATE-----
"
    "MIIBATAN/wAtAAAAAAAAAAAAAAAAAAAAAAAAAAAAAAA="
    "CN=example.com" "18446744073709551617"
    [("algorithm", VStr "_RSAPublicKey"); ("size", VStr "2048");
     ("exponent", VStr "65537")]
    example_com_san.

Definition ec_json : sdict :=
  sample_json
    "-----BEGIN CERTIFICATE-----
MIIBAjAN/wAt
-----END CERTIFICATE-----
"
    "MIIBAjAN/wAtAAAAAAAAAAAAAAAAAAAAAAAAAAAAAAA="
    "CN=ec.test" "4660"
    [("algorithm", VStr "_EllipticCurvePublicKey"); ("size", VStr "256");
     ("curve", VStr "secp256r1")]
    [].

Definition negative_serial_json : sdict :=
  sample_json
    "-----BEGIN CERTIFICATE-----
MIIBBTAN/wAt
-----END CERTIFICATE-----
"
    "MIIBBTAN/wAtAAAAAAAAAAAAAAAAAAAAAAAAAAAAAAA="
    "CN=negative.test" "-1"
    [("algorithm", VStr "_RSAPublicKey"); ("size", VStr "2048");
     ("exponent", VStr "65537")]
    [].

Definition rsa_other_class_json : sdict :=
  sample_json
    "-----BEGIN CERTIFICATE-----
MIIBBjAN/wAt
-----END CERTIFICATE-----
"
    "MIIBBjAN/wAtAAAAAAAAAAAAAAAAAAAAAAAAAAAAAAA="
    "CN=example.com" "18446744073709551617"
    [("algorithm", VStr "RSAPublicKeyWithSerialization"); ("size", VStr "2048");
     ("exponent", VStr "65537")]
    example_com_san.

(** A process in which [object_to_json] only has its default handler. *)
Definition fresh_process : process :=
  {| registry := [(C_object, F_other "object_to_json")];
     _Certificate_attrs := [];
     next_closure := 0 |}.

End Samples.

(* ================================================================= *)
(** ** Further notions used to state properties *)

(** Reading a timestamp back, as [strptime] does with the same format:
    the six calendar fields of a string of the shape
    [YYYY-MM-DD HH:MM:SS]. *)
Definition digit_value (c : ascii) : option N :=
  if is_digit c then Some (N_of_ascii c - 48)%N else None.

Fixpoint read_digits (l : list ascii) (acc : N) : option N :=
  match l with
  | [] => Some acc
  | c :: r =>
      match digit_value c with
      | Some v => read_digits r (10 * acc + v)%N
      | None => None
      end
  end.

Definition read_number (s : string) : option N :=
  read_digits (list_ascii_of_string s) 0.

Definition strptime_timestamp (s : string) : option (N * N * N * N * N * N) :=
  match list_ascii_of_string s with
  | [y1; y2; y3; y4; s1; m1; m2; s2; d1; d2; s3; h1; h2; s4; n1; n2; s5; c1; c2] =>
      if Ascii.eqb s1 "-" && Ascii.eqb s2 "-" && Ascii.eqb s3 " "
         && Ascii.eqb s4 ":" && Ascii.eqb s5 ":"
      then
        match read_digits [y1; y2; y3; y4] 0, read_digits [m1; m2] 0,
              read_digits [d1; d2] 0, read_digits [h1; h2] 0,
              read_digits [n1; n2] 0, read_digits [c1; c2] 0 with
        | Some y, Some m, Some d, Some h, Some n, Some c =>
            Some (y, m, d, h, n, c)
        | _, _, _, _, _, _ => None
        end
      else None
  | _ => None
  end.

Definition calendar_fields (d : datetime) : N * N * N * N * N * N :=
  (year d, month d, day d, hour d, minute d, second d).

(** Chronological order of two naive timestamps, to the second. *)
Definition compare_then (a b : comparison) : comparison :=
  match a with Eq => b | _ => a end.

Definition datetime_compare (a b : datetime) : comparison :=
  compare_then (year a ?= year b)%N
    (compare_then (month a ?= month b)%N
       (compare_then (day a ?= day b)%N
          (compare_then (hour a ?= hour b)%N
             (compare_then (minute a ?= minute b)%N
                (second a ?= second b)%N)))).

(** A value made of strings only, at any depth: no integer that the generic
    serializer would emit as a JSON number. *)
Fixpoint strings_only (v : value) : bool :=
  match v with
  | VStr _ => true
  | VInt _ => false
  | VList l => forallb strings_only l
  | VDict d => forallb (fun kv => match kv with (_, x) => strings_only x end) d
  end.

Definition comparison_eqb (a b : comparison) : bool :=
  match a, b with
  | Eq, Eq | Lt, Lt | Gt, Gt => true
  | _, _ => false
  end.

(** The classes among [ObjectIdentifier] and [Certificate] that a registry
    has no entry for, in the order registration meets them. *)
Definition unregistered (r : dict cls func) : list cls :=
  filter (fun k => negb (existsb (cls_eqb k) (dict_keys r)))
    [C_ObjectIdentifier; C_Certificate].

(** A utility that reads nothing but the native certificate of its
    argument. *)
Definition reads_native_certificate {A : Type} (f : Certificate -> A) : Prop :=
  forall a b : Certificate, x509 a = x509 b -> f a = f b.

Module MoreSamples.
Import Samples.

(** A process in which another handler was registered for certificates and
    the certificate class has an attribute of its own. *)
Definition busy_process : process :=
  {| registry :=
       [(C_object, F_other "object_to_json");
        (C_Certificate, F_other "legacy_certificate_handler");
        (C_other "pathlib.Path", F_other "_path_to_json")];
     _Certificate_attrs := [("__repr__", F_other "_Certificate.__repr__")];
     next_closure := 3 |}.

(** The states registration leaves. *)
Definition fresh_process_registered : process :=
  {| registry :=
       [(C_object, F_other "object_to_json");
        (C_ObjectIdentifier, F_oid_to_json);
        (C_Certificate, F_certificate_to_json)];
     _Certificate_attrs :=
       [("__deepcopy__", F_deepcopy_method_for_x509_certificate 0)];
     next_closure := 1 |}.

Definition fresh_process_registered_twice : process :=
  {| registry := registry fresh_process_registered;
     _Certificate_attrs :=
       [("__deepcopy__", F_deepcopy_method_for_x509_certificate 1)];
     next_closure := 2 |}.

Definition busy_process_registered : process :=
  {| registry :=
       [(C_object, F_other "object_to_json");
        (C_Certificate, F_certificate_to_json);
        (C_other "pathlib.Path", F_other "_path_to_json");
        (C_ObjectIdentifier, F_oid_to_json)];
     _Certificate_attrs :=
       [("__repr__", F_other "_Certificate.__repr__");
        ("__deepcopy__", F_deepcopy_method_for_x509_certificate 3)];
     next_closure := 4 |}.

End MoreSamples.

(* ================================================================= *)
(** ** Facts about the Python runtime *)

Module PyFacts.
Import Py.

(** *** Decimal rendering *)

Lemma all_digits_uint (d : Decimal.uint) :
  all_digits (NilEmpty.string_of_uint d) = true.
Proof. induction d; simpl; auto. Qed.

Lemma uint_string_nonempty (d : Decimal.uint) :
  d <> Decimal.Nil -> NilEmpty.string_of_uint d <> "".
Proof. destruct d; simpl; congruence. Qed.

Lemma nilzero_of_nonnil (d : Decimal.uint) :
  d <> Decimal.Nil -> NilZero.string_of_uint d = NilEmpty.string_of_uint d.
Proof. destruct d; simpl; congruence. Qed.

Lemma str_pos (p : positive) :
  str_int (Z.pos p) = NilEmpty.string_of_uint (Pos.to_uint p).
Proof.
  unfold str_int; simpl.
  apply nilzero_of_nonnil, DecimalPos.Unsigned.to_uint_nonnil.
Qed.

Lemma str_neg (p : positive) :
  str_int (Z.neg p) = String "-" (str_int (Z.pos p)).
Proof. rewrite str_pos. unfold str_int; simpl. f_equal.
  apply nilzero_of_nonnil, DecimalPos.Unsigned.to_uint_nonnil.
Qed.

Lemma eqb_empty_false (s : string) : s <> "" -> String.eqb s "" = false.
Proof. destruct s; simpl; congruence. Qed.

(** The rendering of a natural number is a string of decimal digits. *)
Lemma str_int_digits (z : Z) :
  (0 <= z)%Z -> is_decimal_digit_string (str_int z) = true.
Proof.
  intros Hz. destruct z as [|p|p]; [reflexivity| |lia].
  rewrite str_pos. unfold is_decimal_digit_string.
  rewrite eqb_empty_false, all_digits_uint; [reflexivity|].
  apply uint_string_nonempty, DecimalPos.Unsigned.to_uint_nonnil.
Qed.

(** The rendering of a negative number is a minus sign before the digits of
    its absolute value. *)
Lemma str_int_negative (z : Z) :
  (z < 0)%Z -> str_int z = String "-" (str_int (- z)).
Proof.
  intros Hz. destruct z as [|p|p]; try lia. apply str_neg.
Qed.

Lemma str_int_negative_not_digits (z : Z) :
  (z < 0)%Z -> is_decimal_digit_string (str_int z) = false.
Proof.
  intros Hz. rewrite (str_int_negative z Hz). reflexivity.
Qed.

(** Reading the rendering back gives the integer, whatever its size. *)
Lemma int_of_str_str_int (z : Z) : int_of_str (str_int z) = Some z.
Proof.
  unfold int_of_str, str_int.
  rewrite NilZero.isi.
  - simpl. now rewrite DecimalZ.of_to.
  - destruct z; simpl; try discriminate.
    intros H; injection H as H.
    now apply DecimalPos.Unsigned.to_uint_nonnil in H.
  - destruct z; simpl; try discriminate.
    intros H; injection H as H.
    now apply DecimalPos.Unsigned.to_uint_nonnil in H.
Qed.

Lemma str_int_inj (a b : Z) : str_int a = str_int b -> a = b.
Proof.
  intros H. apply (f_equal int_of_str) in H.
  rewrite !int_of_str_str_int in H. congruence.
Qed.

Lemma str_int_digits_iff (z : Z) :
  is_decimal_digit_string (str_int z) = true <-> (0 <= z)%Z.
Proof.
  split; [|apply str_int_digits].
  intros H. destruct (Z.lt_ge_cases z 0) as [Hn|Hp]; [|exact Hp].
  rewrite str_int_negative_not_digits in H by exact Hn. discriminate.
Qed.

Lemma digit_not_minus (c : ascii) : is_digit c = true -> Ascii.eqb c "-" = false.
Proof.
  intros H. destruct (Ascii.eqb_spec c "-") as [->|]; [|reflexivity].
  discriminate H.
Qed.

(** Any integer is rendered as digits, after a minus sign when negative. *)
Lemma str_int_rendering (z : Z) : is_decimal_rendering (str_int z) = true.
Proof.
  destruct (Z.lt_ge_cases z 0) as [Hn|Hp].
  - rewrite (str_int_negative z Hn). cbn [is_decimal_rendering].
    rewrite Ascii.eqb_refl. apply str_int_digits. lia.
  - pose proof (str_int_digits z Hp) as H.
    destruct (str_int z) as [|c r]; [discriminate H|].
    cbn [is_decimal_rendering]. rewrite digit_not_minus; [exact H|].
    unfold is_decimal_digit_string in H. apply andb_prop in H.
    destruct H as [_ H]. simpl in H. apply andb_prop in H. tauto.
Qed.

Lemma str_N_digits (n : N) : is_decimal_digit_string (str_N n) = true.
Proof. apply str_int_digits, N2Z.is_nonneg. Qed.

(** *** Dictionaries *)

Section DictFacts.
Context {K V : Type}.
Variable eqb : K -> K -> bool.
Hypothesis eqb_eq : forall a b, eqb a b = true <-> a = b.

#[local] Abbreviation get := (dict_get (V:=V) eqb).
#[local] Abbreviation set := (dict_set (V:=V) eqb).
#[local] Abbreviation keys := (dict_keys (K:=K) (V:=V)).
#[local] Abbreviation count := (dict_count (V:=V) eqb).

Lemma eqb_refl_of a : eqb a a = true.
Proof. now apply eqb_eq. Qed.

Lemma eqb_neq a b : a <> b -> eqb a b = false.
Proof.
  intros H. destruct (eqb a b) eqn:E; [|reflexivity].
  apply eqb_eq in E. contradiction.
Qed.

Lemma get_set_same d k v : get (set d k v) k = Some v.
Proof.
  induction d as [|[k' v'] r IH]; simpl.
  - now rewrite eqb_refl_of.
  - destruct (eqb k k') eqn:E; simpl; rewrite E; auto.
Qed.

Lemma get_set_other d k v k' : k' <> k -> get (set d k v) k' = get d k'.
Proof.
  intros Hne. induction d as [|[k0 v0] r IH]; simpl.
  - now rewrite (eqb_neq _ _ Hne).
  - destruct (eqb k k0) eqn:E; simpl.
    + apply eqb_eq in E; subst k0. now rewrite (eqb_neq _ _ Hne).
    + now rewrite IH.
Qed.

Lemma get_in_keys d k : In k (keys d) <-> get d k <> None.
Proof.
  induction d as [|[k' v'] r IH]; simpl.
  - split; [tauto|congruence].
  - destruct (eqb k k') eqn:E.
    + apply eqb_eq in E; subst. split; [discriminate|auto].
    + rewrite <- IH. split; [|tauto].
      intros [H|H]; [|exact H]. subst k'.
      rewrite eqb_refl_of in E. discriminate.
Qed.

(** Assigning to a key that is present keeps the keys and their order. *)
Lemma keys_set_present d k v : In k (keys d) -> keys (set d k v) = keys d.
Proof.
  induction d as [|[k' v'] r IH]; simpl; [tauto|].
  intros H. destruct (eqb k k') eqn:E; simpl; [reflexivity|].
  f_equal. apply IH. destruct H as [H|H]; [|exact H].
  subst k'. rewrite eqb_refl_of in E. discriminate.
Qed.

(** Assigning to a new key appends it. *)
Lemma keys_set_absent d k v : ~ In k (keys d) -> keys (set d k v) = keys d ++ [k].
Proof.
  induction d as [|[k' v'] r IH]; simpl; [reflexivity|].
  intros H. destruct (eqb k k') eqn:E; simpl.
  - apply eqb_eq in E. subst. tauto.
  - f_equal. apply IH. tauto.
Qed.

Lemma key_eq_dec (a b : K) : {a = b} + {a <> b}.
Proof.
  destruct (eqb a b) eqn:E; [left; now apply eqb_eq|right].
  intros ->. rewrite eqb_refl_of in E. discriminate.
Qed.

Lemma nodup_keys_set d k v : NoDup (keys d) -> NoDup (keys (set d k v)).
Proof.
  intros H. destruct (in_dec key_eq_dec k (keys d)) as [Hin|Hin].
  - now rewrite keys_set_present.
  - rewrite keys_set_absent by exact Hin.
    apply NoDup_app; [exact H|constructor; [simpl; tauto|constructor]|].
    intros a Ha [Hb|[]]. subst. contradiction.
Qed.

(** Assigning to a key the value it has changes nothing. *)
Lemma set_same_value d k v : get d k = Some v -> set d k v = d.
Proof.
  induction d as [|[k' v'] r IH]; simpl; [discriminate|].
  destruct (eqb k k') eqn:E.
  - now intros [= ->].
  - intros H. now rewrite IH.
Qed.

Lemma count_notin d k : ~ In k (keys d) -> count d k = 0.
Proof.
  unfold dict_count.
  induction d as [|[k' v'] r IH]; simpl; [reflexivity|].
  intros H. rewrite eqb_neq by (intros ->; tauto). apply IH. tauto.
Qed.

(** In a dictionary a key that is present has one entry. *)
Lemma count_one d k : NoDup (keys d) -> In k (keys d) -> count d k = 1.
Proof.
  unfold dict_count.
  induction d as [|[k' v'] r IH]; simpl; [tauto|].
  intros Hnd Hin. inversion Hnd as [|? ? Hk' Hr]; subst.
  destruct (eqb k k') eqn:E; simpl.
  - apply eqb_eq in E; subst k'. f_equal. now apply count_notin.
  - apply IH; [exact Hr|]. destruct Hin as [Hin|Hin]; [|exact Hin].
    subst k'. rewrite eqb_refl_of in E. discriminate.
Qed.
End DictFacts.

(** *** Checking a property below a bound by enumeration *)

Lemma forall_below (P : N -> bool) (k : N) :
  forallb P (map N.of_nat (seq 0 (N.to_nat k))) = true ->
  forall n, (n < k)%N -> P n = true.
Proof.
  intros H n Hn. rewrite forallb_forall in H. apply H.
  rewrite <- (N2Nat.id n). apply in_map, in_seq. lia.
Qed.

(** *** Base 64 *)

Lemma b64_char_facts (n : N) :
  (n < 64)%N ->
  b64_index (b64_char n) = Some n /\ is_ascii_byte (b64_char n) = true
  /\ Byte.eqb (b64_char n) b64_pad = false
  /\ Byte.eqb (b64_char n) DASH = false
  /\ Byte.eqb (b64_char n) LF = false.
Proof.
  intros Hn.
  assert (H : b64_char_ok n = true)
    by (apply (forall_below b64_char_ok 64); [vm_compute; reflexivity|exact Hn]).
  unfold b64_char_ok in H. cbv zeta in H.
  repeat (apply andb_prop in H; destruct H as [H ?]).
  repeat match goal with
         | h : negb _ = true |- _ => apply negb_true_iff in h
         end.
  repeat split; auto.
  unfold option_N_eqb in H. destruct (b64_index (b64_char n)); [|discriminate].
  apply N.eqb_eq in H. now subst.
Qed.

Lemma b64_index_char (n : N) : (n < 64)%N -> b64_index (b64_char n) = Some n.
Proof. intros H. apply (b64_char_facts n H). Qed.

Lemma b64_char_not_pad (n : N) :
  (n < 64)%N -> Byte.eqb (b64_char n) b64_pad = false.
Proof. intros H. apply (b64_char_facts n H). Qed.

Lemma byte_of_to_N (b : byte) : byte_of_N (Byte.to_N b) = b.
Proof. unfold byte_of_N. now rewrite Byte.of_to_N. Qed.

Ltac byte_bounds :=
  repeat match goal with
         | b : byte |- _ =>
             lazymatch goal with
             | _ : (Byte.to_N b <= 255)%N |- _ => fail
             | _ => pose proof (Byte.to_N_bounded b)
             end
         end.

Ltac sextet := zify; Z.to_euclidean_division_equations; lia.

(** Induction over a list three elements at a time. *)
Lemma list_ind3 {A} (P : list A -> Prop) :
  P [] -> (forall a, P [a]) -> (forall a b, P [a; b]) ->
  (forall a b c r, P r -> P (a :: b :: c :: r)) ->
  forall l, P l.
Proof.
  intros H0 H1 H2 H3.
  assert (H : forall l, P l /\ (forall a, P (a :: l)) /\ (forall a b, P (a :: b :: l))).
  { induction l as [|x r [Ha [Hb Hc]]]; repeat split; auto. }
  intros l. apply H.
Qed.

Lemma b64decode_group (a b c : byte) (r : bytes) :
  b64decode (b64encode r) = Some r ->
  b64decode (b64encode (a :: b :: c :: r)) = Some (a :: b :: c :: r).
Proof.
  intros Hr. byte_bounds.
  remember (Byte.to_N a) as x. remember (Byte.to_N b) as y.
  remember (Byte.to_N c) as z.
  change (b64encode (a :: b :: c :: r))
    with (b64_char (Byte.to_N a / 4)
          :: b64_char ((Byte.to_N a mod 4) * 16 + Byte.to_N b / 16)
          :: b64_char ((Byte.to_N b mod 16) * 4 + Byte.to_N c / 64)
          :: b64_char (Byte.to_N c mod 64) :: b64encode r)%N.
  rewrite <- Heqx, <- Heqy, <- Heqz.
  cbn [b64decode].
  rewrite !b64_index_char by sextet.
  rewrite (b64_char_not_pad (z mod 64)) by sextet.
  replace (x / 4 * 4 + (x mod 4 * 16 + y / 16) / 16)%N with x by sextet.
  replace ((x mod 4 * 16 + y / 16) mod 16 * 16 + (y mod 16 * 4 + z / 64) / 4)%N
    with y by sextet.
  replace ((y mod 16 * 4 + z / 64) mod 4 * 64 + z mod 64)%N with z by sextet.
  subst x y z. rewrite !byte_of_to_N.
  destruct (b64encode r); rewrite Hr; reflexivity.
Qed.

(** Decoding the encoding of a byte string gives the byte string. *)
Lemma b64decode_b64encode (l : bytes) : b64decode (b64encode l) = Some l.
Proof.
  induction l as [|a|a b|a b c r IH] using list_ind3.
  - reflexivity.
  - byte_bounds. remember (Byte.to_N a) as x.
    change (b64encode [a])
      with [b64_char (Byte.to_N a / 4); b64_char ((Byte.to_N a mod 4) * 16);
            b64_pad; b64_pad]%N.
    rewrite <- Heqx. cbn [b64decode].
    rewrite !b64_index_char by sextet.
    replace (x / 4 * 4 + x mod 4 * 16 / 16)%N with x by sextet.
    subst x. now rewrite byte_of_to_N.
  - byte_bounds. remember (Byte.to_N a) as x. remember (Byte.to_N b) as y.
    change (b64encode [a; b])
      with [b64_char (Byte.to_N a / 4);
            b64_char ((Byte.to_N a mod 4) * 16 + Byte.to_N b / 16);
            b64_char ((Byte.to_N b mod 16) * 4); b64_pad]%N.
    rewrite <- Heqx, <- Heqy. cbn [b64decode].
    rewrite !b64_index_char by sextet.
    rewrite (b64_char_not_pad (y mod 16 * 4)) by sextet.
    replace (x / 4 * 4 + (x mod 4 * 16 + y / 16) / 16)%N with x by sextet.
    replace ((x mod 4 * 16 + y / 16) mod 16 * 16 + y mod 16 * 4 / 4)%N
      with y by sextet.
    subst x y. now rewrite !byte_of_to_N.
  - now apply b64decode_group.
Qed.

Lemma b64_char_text (n : N) : (n < 64)%N -> is_b64_text_byte (b64_char n) = true.
Proof.
  intros H. destruct (b64_char_facts n H) as (_ & Ha & _ & Hd & Hl).
  unfold is_b64_text_byte. now rewrite Ha, Hd, Hl.
Qed.

Lemma b64encode_text (l : bytes) : forallb is_b64_text_byte (b64encode l) = true.
Proof.
  induction l as [|a|a b|a b c r IH] using list_ind3.
  - reflexivity.
  - byte_bounds. cbn [b64encode forallb].
    rewrite !b64_char_text by sextet. reflexivity.
  - byte_bounds. cbn [b64encode forallb].
    rewrite !b64_char_text by sextet. reflexivity.
  - byte_bounds.
    change (b64encode (a :: b :: c :: r))
      with (b64_char (Byte.to_N a / 4)
            :: b64_char ((Byte.to_N a mod 4) * 16 + Byte.to_N b / 16)
            :: b64_char ((Byte.to_N b mod 16) * 4 + Byte.to_N c / 64)
            :: b64_char (Byte.to_N c mod 64) :: b64encode r)%N.
    cbn [forallb]. rewrite !b64_char_text by sextet. exact IH.
Qed.

Lemma b64_text_ascii (l : bytes) :
  forallb is_b64_text_byte l = true -> forallb is_ascii_byte l = true.
Proof.
  induction l as [|c r IH]; simpl; [reflexivity|].
  intros H. apply andb_prop in H. destruct H as [H1 H2].
  unfold is_b64_text_byte in H1.
  apply andb_prop in H1. destruct H1 as [H1 _].
  apply andb_prop in H1. destruct H1 as [H1 _].
  now rewrite H1, IH.
Qed.

(** *** Decoding *)

Lemma ascii_utf8_valid (l : bytes) :
  forallb is_ascii_byte l = true -> utf8_valid l = true.
Proof.
  induction l as [|c r IH]; simpl; [reflexivity|].
  intros H. apply andb_prop in H. destruct H as [H1 H2].
  unfold is_ascii_byte in H1. apply N.ltb_lt in H1.
  replace (in_range 0 127 c) with true; [now apply IH|].
  symmetry. unfold in_range. apply andb_true_intro.
  split; apply N.leb_le; lia.
Qed.

Lemma decode_utf8_b64encode (l : bytes) :
  decode_utf8 (b64encode l) = Ok (string_of_list_byte (b64encode l)).
Proof.
  unfold decode_utf8.
  now rewrite ascii_utf8_valid by apply b64_text_ascii, b64encode_text.
Qed.

(** *** Timestamps *)

Lemma two_digits_inv (s : string) :
  two_digits s = true ->
  exists a b, s = String a (String b "") /\ is_digit a = true /\ is_digit b = true.
Proof.
  destruct s as [|a [|b [|]]]; simpl; try discriminate.
  intros H. apply andb_prop in H. destruct H. eauto.
Qed.

Lemma four_digits_inv (s : string) :
  four_digits s = true ->
  exists a b c d, s = String a (String b (String c (String d "")))
    /\ is_digit a = true /\ is_digit b = true
    /\ is_digit c = true /\ is_digit d = true.
Proof.
  destruct s as [|a [|b r]]; simpl; try discriminate.
  intros H. apply andb_prop in H. destruct H as [H Hr].
  apply andb_prop in H. destruct H as [Ha Hb].
  destruct (two_digits_inv r Hr) as (c & d & -> & Hc & Hd).
  exists a, b, c, d. auto.
Qed.

Lemma zfill2_digits (n : N) : (n < 100)%N -> two_digits (zfill 2 (str_N n)) = true.
Proof.
  apply (forall_below (fun n => two_digits (zfill 2 (str_N n))) 100).
  vm_compute. reflexivity.
Qed.

Lemma zfill4_digits (n : N) : (n < 10000)%N -> four_digits (zfill 4 (str_N n)) = true.
Proof.
  apply (forall_below (fun n => four_digits (zfill 4 (str_N n))) 10000).
  vm_compute. reflexivity.
Qed.

Lemma append_empty_r (s : string) : (s ++ "")%string = s.
Proof. induction s; simpl; congruence. Qed.

(** The format visits the six calendar fields in turn, and no other. *)
Lemma strftime_timestamp (d : datetime) :
  strftime d timestamp_format =
  (str_N (year d) ++ "-" ++ zfill 2 (str_N (month d)) ++ "-"
   ++ zfill 2 (str_N (day d)) ++ " " ++ zfill 2 (str_N (hour d)) ++ ":"
   ++ zfill 2 (str_N (minute d)) ++ ":" ++ zfill 2 (str_N (second d)))%string.
Proof.
  unfold timestamp_format. cbn [strftime Ascii.eqb Bool.eqb directive].
  rewrite append_empty_r. reflexivity.
Qed.

Lemma days_in_month_le (y m : N) : (days_in_month y m <= 31)%N.
Proof.
  unfold days_in_month.
  repeat match goal with |- context [if ?b then _ else _] => destruct b end; lia.
Qed.

Lemma datetime_valid_bounds (d : datetime) :
  datetime_valid d = true ->
  (year d < 10000 /\ month d < 100 /\ day d < 100 /\ hour d < 100
   /\ minute d < 100 /\ second d < 100)%N.
Proof.
  unfold datetime_valid. intros H.
  repeat (apply andb_prop in H; destruct H as [H ?]).
  repeat match goal with
         | h : (_ <=? _)%N = true |- _ => apply N.leb_le in h
         | h : (_ <? _)%N = true |- _ => apply N.ltb_lt in h
         end.
  pose proof (days_in_month_le (year d) (month d)). lia.
Qed.

(** A year of four digits is written as it is padded. *)
Lemma str_N_four_digits (n : N) :
  (1000 <= n)%N -> (n < 10000)%N -> str_N n = zfill 4 (str_N n).
Proof.
  intros Hlo Hhi.
  assert (H : (n <? 1000)%N || String.eqb (str_N n) (zfill 4 (str_N n)) = true)
    by (apply (forall_below
                 (fun n => (n <? 1000)%N
                           || String.eqb (str_N n) (zfill 4 (str_N n))) 10000);
        [vm_compute; reflexivity|exact Hhi]).
  apply orb_prop in H. destruct H as [H|H].
  - apply N.ltb_lt in H. lia.
  - now apply String.eqb_eq.
Qed.

(** Below the year 10000, the year is written on four characters exactly
    from the year 1000 on. *)
Lemma str_N_length_four (n : N) :
  (n < 10000)%N -> String.length (str_N n) = 4 -> (1000 <= n)%N.
Proof.
  intros Hhi Hlen.
  assert (H : negb (Nat.eqb (String.length (str_N n)) 4) || (1000 <=? n)%N = true)
    by (apply (forall_below
                 (fun n => negb (Nat.eqb (String.length (str_N n)) 4)
                           || (1000 <=? n)%N) 10000);
        [vm_compute; reflexivity|exact Hhi]).
  rewrite Hlen in H. now apply N.leb_le.
Qed.

Lemma strftime_timestamp_padded (d : datetime) :
  datetime_valid d = true ->
  (1000 <= year d)%N ->
  strftime d timestamp_format =
  (zfill 4 (str_N (year d)) ++ "-" ++ zfill 2 (str_N (month d)) ++ "-"
   ++ zfill 2 (str_N (day d)) ++ " " ++ zfill 2 (str_N (hour d)) ++ ":"
   ++ zfill 2 (str_N (minute d)) ++ ":" ++ zfill 2 (str_N (second d)))%string.
Proof.
  intros Hv Hy. rewrite strftime_timestamp.
  destruct (datetime_valid_bounds d Hv) as (Hlt & _).
  now rewrite <- (str_N_four_digits (year d) Hy Hlt).
Qed.

(** A valid [datetime] with a year of four digits is formatted as
    [YYYY-MM-DD HH:MM:SS]. *)
Lemma strftime_timestamp_shape (d : datetime) :
  datetime_valid d = true ->
  (1000 <= year d)%N ->
  is_timestamp_shape (strftime d timestamp_format) = true.
Proof.
  intros Hv Hyear. rewrite strftime_timestamp_padded by assumption.
  destruct (datetime_valid_bounds d Hv) as (Hy & Hm & Hd & Hh & Hn & Hs).
  destruct (four_digits_inv _ (zfill4_digits _ Hy))
    as (y1 & y2 & y3 & y4 & -> & ? & ? & ? & ?).
  destruct (two_digits_inv _ (zfill2_digits _ Hm)) as (m1 & m2 & -> & ? & ?).
  destruct (two_digits_inv _ (zfill2_digits _ Hd)) as (d1 & d2 & -> & ? & ?).
  destruct (two_digits_inv _ (zfill2_digits _ Hh)) as (h1 & h2 & -> & ? & ?).
  destruct (two_digits_inv _ (zfill2_digits _ Hn)) as (n1 & n2 & -> & ? & ?).
  destruct (two_digits_inv _ (zfill2_digits _ Hs)) as (s1 & s2 & -> & ? & ?).
  cbn [String.append is_timestamp_shape list_ascii_of_string forallb].
  repeat match goal with h : is_digit _ = true |- _ => rewrite h; clear h end.
  reflexivity.
Qed.

Lemma string_length_append (a b : string) :
  String.length (a ++ b) = String.length a + String.length b.
Proof. induction a; simpl; congruence. Qed.

Lemma zfill2_length (n : N) : (n < 100)%N -> String.length (zfill 2 (str_N n)) = 2.
Proof.
  intros H. destruct (two_digits_inv _ (zfill2_digits _ H)) as (a & b & -> & _).
  reflexivity.
Qed.

Lemma timestamp_shape_length (s : string) :
  is_timestamp_shape s = true -> String.length s = 19.
Proof.
  unfold is_timestamp_shape.
  assert (E : String.length s = List.length (list_ascii_of_string s))
    by (induction s; simpl; congruence).
  rewrite E. generalize (list_ascii_of_string s) as l. intros l.
  do 20 (destruct l as [|? l]; try discriminate). reflexivity.
Qed.

(** With a year below 1000 the text is too short for the shape. *)
Lemma strftime_timestamp_shape_year (d : datetime) :
  datetime_valid d = true ->
  is_timestamp_shape (strftime d timestamp_format) = true ->
  (1000 <= year d)%N.
Proof.
  intros Hv Hs. apply timestamp_shape_length in Hs.
  rewrite strftime_timestamp in Hs.
  destruct (datetime_valid_bounds d Hv) as (Hy & Hm & Hd & Hh & Hn & Hc).
  rewrite !string_length_append in Hs.
  rewrite !zfill2_length in Hs by assumption. cbn [String.length] in Hs.
  apply str_N_length_four; [exact Hy|lia].
Qed.

(** The fraction of a second and the time zone play no part. *)
Lemma strftime_timestamp_fields (d d' : datetime) :
  year d = year d' -> month d = month d' -> day d = day d' ->
  hour d = hour d' -> minute d = minute d' -> second d = second d' ->
  strftime d timestamp_format = strftime d' timestamp_format.
Proof.
  intros. rewrite !strftime_timestamp. congruence.
Qed.

Lemma cls_eqb_eq (a b : cls) : cls_eqb a b = true <-> a = b.
Proof.
  destruct a, b; simpl; split; try congruence; try reflexivity.
  - intros H. apply String.eqb_eq in H. congruence.
  - intros H. injection H as ->. apply String.eqb_refl.
Qed.

End PyFacts.

(* ================================================================= *)
(** ** Facts about the PEM armour *)

Module CryptoFacts.
Import Py Crypto PyFacts.

Lemma byte_eqb_refl (b : byte) : Byte.eqb b b = true.
Proof. now apply Byte.byte_dec_lb. Qed.

Lemma strip_prefix_app (p l : bytes) : strip_prefix p (p ++ l) = Some l.
Proof.
  induction p as [|a p IH]; simpl; [reflexivity|].
  now rewrite byte_eqb_refl.
Qed.

Lemma text_byte_split (c : byte) :
  is_b64_text_byte c = true ->
  is_ascii_byte c = true /\ Byte.eqb c DASH = false /\ Byte.eqb c LF = false.
Proof.
  unfold is_b64_text_byte. intros H.
  apply andb_prop in H. destruct H as [H Hl].
  apply andb_prop in H. destruct H as [Ha Hd].
  apply negb_true_iff in Hl, Hd. auto.
Qed.

(** Wrapping only adds line feeds. *)
Lemma filter_wrap_lines (l : bytes) :
  forallb is_b64_text_byte l = true ->
  forall col, filter (fun c => negb (Byte.eqb c LF)) (wrap_lines col l) = l.
Proof.
  induction l as [|c r IH]; intros H col.
  - destruct col; reflexivity.
  - simpl in H. apply andb_prop in H. destruct H as [Hc Hr].
    destruct (text_byte_split c Hc) as (_ & _ & Hl).
    simpl. destruct (Nat.eqb col 64); simpl; rewrite Hl; simpl;
      now rewrite IH.
Qed.

Lemma span_body_wrap_lines (l tail : bytes) :
  forallb is_b64_text_byte l = true ->
  forall col,
    span_body (wrap_lines col l ++ DASH :: tail) = (wrap_lines col l, DASH :: tail).
Proof.
  induction l as [|c r IH]; intros H col.
  - destruct col; reflexivity.
  - simpl in H. apply andb_prop in H. destruct H as [Hc Hr].
    destruct (text_byte_split c Hc) as (_ & Hd & _).
    simpl. destruct (Nat.eqb col 64); simpl; rewrite Hd; now rewrite IH.
Qed.

Lemma wrap_lines_ascii (l : bytes) :
  forallb is_ascii_byte l = true ->
  forall col, forallb is_ascii_byte (wrap_lines col l) = true.
Proof.
  induction l as [|c r IH]; intros H col.
  - destruct col; reflexivity.
  - simpl in H. apply andb_prop in H. destruct H as [Hc Hr].
    simpl. destruct (Nat.eqb col 64); simpl; rewrite Hc; now rewrite IH.
Qed.

(** Removing the armour from an armoured encoding gives the encoding. *)
Lemma pem_decode_encode (d : bytes) : pem_decode (pem_encode d) = Some d.
Proof.
  unfold pem_decode, pem_encode.
  rewrite (app_assoc pem_begin [LF]), strip_prefix_app.
  change (pem_end ++ [LF]) with (DASH :: tl pem_end ++ [LF]).
  rewrite span_body_wrap_lines by apply b64encode_text.
  change (DASH :: tl pem_end ++ [LF]) with (pem_end ++ [LF]).
  rewrite strip_prefix_app.
  rewrite filter_wrap_lines by apply b64encode_text.
  apply b64decode_b64encode.
Qed.

(** The armoured encoding is plain ASCII. *)
Lemma pem_encode_ascii (d : bytes) : forallb is_ascii_byte (pem_encode d) = true.
Proof.
  unfold pem_encode. rewrite !forallb_app.
  rewrite wrap_lines_ascii by apply b64_text_ascii, b64encode_text.
  reflexivity.
Qed.

Lemma decode_ascii_pem (d : bytes) :
  decode_ascii (pem_encode d) = Ok (string_of_list_byte (pem_encode d)).
Proof. unfold decode_ascii. now rewrite pem_encode_ascii. Qed.

(** Loading what [public_bytes] gives for a parsed certificate creates a new
    object around the same native certificate. *)
Lemma load_pem_public_bytes (backend : Backend) (c : X509) (h : heap) :
  parsed backend c ->
  load_pem_x509_certificate (public_bytes c PEM) backend h
  = (Ok {| object_id := h; x509 := c |}, N.succ h).
Proof.
  intros Hp. unfold load_pem_x509_certificate, public_bytes.
  rewrite pem_decode_encode. unfold load_der_x509_certificate.
  now rewrite Hp.
Qed.

End CryptoFacts.

(* ================================================================= *)
(** ** Properties of [json_output.py] *)

Import PyFacts CryptoFacts.

Section Projector.

Variable get_public_key_sha256 : Certificate -> bytes.
Variable extract_dns_subject_alternative_names : Certificate -> list string.

#[local] Abbreviation to_json :=
  (_certificate_to_json get_public_key_sha256
     extract_dns_subject_alternative_names).
#[local] Abbreviation dns_names :=
  (extract_dns_subject_alternative_names).

(** The mapping a call returns, entry by entry. *)
Lemma certificate_to_json_inv (c : Certificate) (d : sdict) :
  to_json c = Ok d ->
  exists alg size extra,
    signature_hash_algorithm c = Some alg
    /\ described_key (public_key c) = Some (size, extra)
    /\ d =
       [ ("as_pem", VStr (string_of_list_byte (public_bytes c PEM)));
         ("hpkp_pin",
          VStr (string_of_list_byte (b64encode (get_public_key_sha256 c))));
         ("subject", VStr (rfc4514_string (subject c)));
         ("issuer", VStr (rfc4514_string (issuer c)));
         ("serialNumber", VStr (str_int (serial_number c)));
         ("notBefore", VStr (strftime (not_valid_before c) timestamp_format));
         ("notAfter", VStr (strftime (not_valid_after c) timestamp_format));
         ("signatureAlgorithm", VStr (hash_name alg));
         ("publicKey",
          VDict [ ("algorithm", VStr (class_name (public_key c)));
                  ("size", VStr (str_N size)); extra ]) ]
       ++ (if truthy (dns_names c)
           then [("subjectAlternativeName",
                  VDict [("DNS", VList (map VStr (dns_names c)))])]
           else []).
Proof.
  unfold _certificate_to_json, described_key.
  unfold public_bytes at 1. rewrite decode_ascii_pem, decode_utf8_b64encode.
  cbn [bind].
  destruct (signature_hash_algorithm c) as [alg|]; cbn [name_of bind];
    [|discriminate].
  unfold is_EllipticCurvePublicKey, curve_of, key_size_of, public_numbers.
  destruct (dns_names c) as [|n ns];
    destruct (variant (public_key c)) as [cv x y|s e n'|s y p q g|raw|raw];
    cbn; intros H; try discriminate;
    injection H as <-; eexists _, _, _; repeat split; reflexivity.
Qed.

(** The projector returns on the certificates that [projects] selects, and
    on no other. *)
Lemma certificate_to_json_returns (c : Certificate) :
  projects c = true <-> exists d, to_json c = Ok d.
Proof.
  split.
  - unfold projects, described_key, _certificate_to_json.
    unfold public_bytes at 1. rewrite decode_ascii_pem, decode_utf8_b64encode.
    unfold is_EllipticCurvePublicKey, curve_of, key_size_of, public_numbers.
    destruct (signature_hash_algorithm c); [|discriminate].
    destruct (dns_names c);
      destruct (variant (public_key c)); try discriminate;
      intros _; cbn; eexists; reflexivity.
  - intros [d Hd].
    destruct (certificate_to_json_inv c d Hd) as (alg & size & extra & Ha & Hk & _).
    unfold projects. now rewrite Ha, Hk.
Qed.

Lemma described_key_cases (key : PublicKey) (size : N) (extra : string * value) :
  described_key key = Some (size, extra) ->
  (is_EllipticCurvePublicKey key = true
   /\ exists cv x y, variant key = EllipticCurvePublicKey cv x y
        /\ size = curve_key_size cv /\ extra = ("curve", VStr (curve_name cv)))
  \/ (is_EllipticCurvePublicKey key = false
      /\ exists s e n, variant key = RSAPublicKey s e n
           /\ size = s /\ extra = ("exponent", VStr (str_int e))).
Proof.
  unfold described_key, is_EllipticCurvePublicKey.
  destruct (variant key) as [cv x y|s e n|s y p q g|raw|raw];
    intros H; try discriminate; injection H as <- <-.
  - left. split; [reflexivity|]. now exists cv, x, y.
  - right. split; [reflexivity|]. now exists s, e, n.
Qed.

Ltac invert_projection H :=
  let alg := fresh "alg" in
  let size := fresh "size" in
  let extra := fresh "extra" in
  let Halg := fresh "Halg" in
  let Hkey := fresh "Hkey" in
  apply certificate_to_json_inv in H;
  destruct H as (alg & size & extra & Halg & Hkey & ->).

(** C1.  The mapping returned for a certificate has the nine mandatory
    keys [as_pem], [hpkp_pin], [subject], [issuer], [serialNumber],
    [notBefore], [notAfter], [signatureAlgorithm] and [publicKey]; it has
    the key [subjectAlternativeName], bound to the mapping of [DNS] to the
    extracted names, exactly when the list of extracted DNS names is not
    empty; and it has no other key. *)
Theorem certificate_to_json_keys (c : Certificate) (d : sdict) :
  to_json c = Ok d ->
  dict_keys d =
    mandatory_keys
    ++ (if truthy (dns_names c) then ["subjectAlternativeName"] else [])
  /\ (In "subjectAlternativeName" (dict_keys d) <-> dns_names c <> [])
  /\ (dns_names c <> [] ->
      sget d "subjectAlternativeName"
      = Some (VDict [("DNS", VList (map VStr (dns_names c)))])).
Proof.
  intros H. invert_projection H.
  destruct (dns_names c) as [|n ns]; cbn; repeat split;
    try congruence; try discriminate; intuition discriminate.
Qed.

(** C2.  The [publicKey] sub-mapping of the mapping returned for a
    certificate has the key [algorithm], the key [size], and one more key:
    [curve] when the public key is an elliptic-curve key, [exponent]
    otherwise; so it never has both and never has neither. *)
Theorem publicKey_has_curve_or_exponent (c : Certificate) (d : sdict) :
  to_json c = Ok d ->
  exists pk,
    sget d "publicKey" = Some (VDict pk)
    /\ dict_keys pk =
       ["algorithm"; "size";
        if is_EllipticCurvePublicKey (public_key c) then "curve" else "exponent"]
    /\ (In "curve" (dict_keys pk)
        <-> is_EllipticCurvePublicKey (public_key c) = true)
    /\ (In "exponent" (dict_keys pk)
        <-> is_EllipticCurvePublicKey (public_key c) = false).
Proof.
  intros H. invert_projection H.
  eexists. split; [reflexivity|].
  destruct (described_key_cases _ _ _ Hkey)
    as [(-> & cv & x & y & _ & _ & ->)|(-> & s & e & n & _ & _ & ->)];
    cbn; repeat split; try congruence; intuition discriminate.
Qed.

(** C4, as amended.  Every numeric field of the mapping returned for a
    certificate is a string and not a number.  [serialNumber] and
    [publicKey.exponent] hold the decimal rendering of the integer: decimal
    digits, preceded by a minus sign exactly when the integer is negative, so
    that they are strings of decimal digits exactly when the integer is not
    negative; reading the string back gives the integer whatever its size,
    and no other integer has the same rendering.  [publicKey.size] is a
    string of decimal digits. *)
Theorem numeric_fields_are_decimal_renderings (c : Certificate) (d : sdict) :
  to_json c = Ok d ->
  let serial := serial_number c in
  sget d "serialNumber" = Some (VStr (str_int serial))
  /\ is_decimal_rendering (str_int serial) = true
  /\ (is_decimal_digit_string (str_int serial) = true <-> (0 <= serial)%Z)
  /\ int_of_str (str_int serial) = Some serial
  /\ (forall z, str_int z = str_int serial -> z = serial)
  /\ (exists size,
        sget2 d "publicKey" "size" = Some (VStr (str_N size))
        /\ is_decimal_digit_string (str_N size) = true)
  /\ (forall v, sget2 d "publicKey" "exponent" = Some v ->
        exists s e n,
          variant (public_key c) = RSAPublicKey s e n
          /\ v = VStr (str_int e)
          /\ is_decimal_rendering (str_int e) = true
          /\ (is_decimal_digit_string (str_int e) = true <-> (0 <= e)%Z)
          /\ int_of_str (str_int e) = Some e).
Proof.
  intros H serial. invert_projection H.
  split; [reflexivity|]. split; [apply str_int_rendering|].
  split; [apply str_int_digits_iff|]. split; [apply int_of_str_str_int|].
  split; [intros z; apply str_int_inj|].
  split.
  - exists size. split; [reflexivity|apply str_N_digits].
  - intros v Hv.
    destruct (described_key_cases _ _ _ Hkey)
      as [(_ & cv & x & y & _ & _ & ->)|(_ & s & e & n & Hvar & _ & ->)].
    + discriminate Hv.
    + injection Hv as <-. exists s, e, n.
      repeat split; auto using str_int_rendering, int_of_str_str_int;
        apply str_int_digits_iff.
Qed.

(** C8, as amended.  In the mapping returned for a certificate, [notBefore]
    and [notAfter] are the two validity timestamps formatted by
    [%Y-%m-%d %H:%M:%S]: the year in decimal, not padded, then month, day,
    hour, minute and second on two digits each, with nothing for a time
    zone and nothing below the second, which therefore play no part.  The
    text has the shape [YYYY-MM-DD HH:MM:SS] exactly when the year has four
    digits, that is from the year 1000 on. *)
Theorem validity_timestamps_format (c : Certificate) (d : sdict) :
  to_json c = Ok d ->
  datetime_valid (not_valid_before c) = true ->
  datetime_valid (not_valid_after c) = true ->
  exists before after,
    sget d "notBefore" = Some (VStr before)
    /\ sget d "notAfter" = Some (VStr after)
    /\ before = strftime (not_valid_before c) "%Y-%m-%d %H:%M:%S"
    /\ after = strftime (not_valid_after c) "%Y-%m-%d %H:%M:%S"
    /\ (is_timestamp_shape before = true <-> (1000 <= year (not_valid_before c))%N)
    /\ (is_timestamp_shape after = true <-> (1000 <= year (not_valid_after c))%N)
    /\ before = timestamp_text (not_valid_before c)
    /\ after = timestamp_text (not_valid_after c)
    /\ (forall us tz,
          before = strftime
                     {| year := year (not_valid_before c);
                        month := month (not_valid_before c);
                        day := day (not_valid_before c);
                        hour := hour (not_valid_before c);
                        minute := minute (not_valid_before c);
                        second := second (not_valid_before c);
                        microsecond := us; tzinfo := tz |}
                     "%Y-%m-%d %H:%M:%S").
Proof.
  intros H Hb Ha. invert_projection H.
  eexists _, _. split; [reflexivity|]. split; [reflexivity|].
  split; [reflexivity|]. split; [reflexivity|].
  split.
  { split; [now apply strftime_timestamp_shape_year
           |now apply strftime_timestamp_shape]. }
  split.
  { split; [now apply strftime_timestamp_shape_year
           |now apply strftime_timestamp_shape]. }
  split; [apply strftime_timestamp|]. split; [apply strftime_timestamp|].
  intros us tz. now apply strftime_timestamp_fields.
Qed.

(** C10.  The [algorithm] of the [publicKey] sub-mapping is the name of the
    class of the public-key object; two certificates whose keys are the same
    key held by objects of classes with different names therefore get
    different [algorithm] strings. *)
Theorem algorithm_is_class_name (c1 c2 : Certificate) (d1 d2 : sdict) :
  to_json c1 = Ok d1 ->
  to_json c2 = Ok d2 ->
  sget2 d1 "publicKey" "algorithm" = Some (VStr (class_name (public_key c1)))
  /\ sget2 d2 "publicKey" "algorithm" = Some (VStr (class_name (public_key c2)))
  /\ (variant (public_key c1) = variant (public_key c2) ->
      class_name (public_key c1) <> class_name (public_key c2) ->
      sget2 d1 "publicKey" "algorithm" <> sget2 d2 "publicKey" "algorithm").
Proof.
  intros H1 H2. invert_projection H1. invert_projection H2.
  split; [reflexivity|]. split; [reflexivity|].
  intros _ Hne. cbn. congruence.
Qed.

End Projector.

(** C7.  [_oid_to_json] returns, for every object identifier, its dotted
    string; for the identifier 1.2.840.113549.1.1.11 this is the string
    ["1.2.840.113549.1.1.11"]. *)
Theorem oid_to_json_dotted_string :
  (forall obj, _oid_to_json obj = dotted_string obj)
  /\ (forall arcs, _oid_to_json (oid_of_arcs arcs) = dotted arcs)
  /\ _oid_to_json (oid_of_arcs [1; 2; 840; 113549; 1; 1; 11]%N)
     = "1.2.840.113549.1.1.11".
Proof. repeat split. Qed.

Section Copy.

Variable default_backend : Backend.

#[local] Abbreviation copy_method :=
  (_deepcopy_method_for_x509_certificate default_backend).

(** The copy method parses the encoding of the certificate and wraps the
    result in a new object. *)
Lemma deepcopy_method_eq {Memo : Type} (c : Certificate) (memo : Memo) (h : heap) :
  copy_method c memo h =
  match d2i_X509 default_backend (der c) with
  | Some x => (Ok {| object_id := h; x509 := x |}, N.succ h)
  | None => (Raise (ValueError (load_failure default_backend)), h)
  end.
Proof.
  unfold _deepcopy_method_for_x509_certificate, load_pem_x509_certificate.
  unfold public_bytes. now rewrite pem_decode_encode.
Qed.

(** Registration always succeeds, and this is the state it leaves. *)
Lemma register_eq (p : process) :
  register_json_serializer_functions p =
  Ok {| registry :=
          dict_set cls_eqb
            (dict_set cls_eqb (registry p) C_ObjectIdentifier F_oid_to_json)
            C_Certificate F_certificate_to_json;
        _Certificate_attrs :=
          dict_set String.eqb (_Certificate_attrs p) "__deepcopy__"
            (F_deepcopy_method_for_x509_certificate (next_closure p));
        next_closure := N.succ (next_closure p) |}.
Proof. reflexivity. Qed.

(** After registration, [copy.deepcopy] of a certificate runs the copy
    method. *)
Lemma deepcopy_after_register {Memo : Type} (p p' : process)
    (c : Certificate) (memo : Memo) :
  register_json_serializer_functions p = Ok p' ->
  deepcopy default_backend p' c memo = copy_method c memo.
Proof.
  rewrite register_eq. intros [= <-]. unfold deepcopy. cbn [_Certificate_attrs].
  rewrite (get_set_same String.eqb String.eqb_eq). reflexivity.
Qed.

Variable get_public_key_sha256 : Certificate -> bytes.
Variable extract_dns_subject_alternative_names : Certificate -> list string.

(** C5.  The copy method installed by registration returns what loading the
    certificate's own PEM encoding returns.  For a certificate delivered by
    the parser this is a new object, distinct from the original, with the
    same DER and PEM encoding; loading the [as_pem] field of the projection
    gives a certificate with that encoding too. *)
Theorem deepcopy_is_pem_round_trip {Memo : Type}
    (c : Certificate) (memo : Memo) (h : heap) :
  copy_method c memo h
  = load_pem_x509_certificate (public_bytes c PEM) default_backend h
  /\ (forall p p', register_json_serializer_functions p = Ok p' ->
        deepcopy default_backend p' c memo h = copy_method c memo h)
  /\ (parsed default_backend c ->
      (object_id c < h)%N ->
      exists copy,
        copy_method c memo h = (Ok copy, N.succ h)
        /\ object_id copy <> object_id c
        /\ public_bytes copy DER = public_bytes c DER
        /\ public_bytes copy PEM = public_bytes c PEM
        /\ (forall d,
             _certificate_to_json get_public_key_sha256
               extract_dns_subject_alternative_names c = Ok d ->
             exists as_pem reloaded,
               sget d "as_pem" = Some (VStr as_pem)
               /\ load_pem_x509_certificate (encode_ascii as_pem)
                    default_backend h
                  = (Ok reloaded, N.succ h)
               /\ public_bytes reloaded DER = public_bytes c DER)).
Proof.
  split; [reflexivity|].
  split. { intros p p' Hr. now rewrite (deepcopy_after_register p p'). }
  intros Hp Hid.
  exists {| object_id := h; x509 := c |}.
  split. { rewrite deepcopy_method_eq. now rewrite Hp. }
  split. { cbn. lia. }
  split; [reflexivity|]. split; [reflexivity|].
  intros d Hd. apply certificate_to_json_inv in Hd.
  destruct Hd as (alg & size & extra & _ & _ & ->).
  exists (string_of_list_byte (public_bytes c PEM)), {| object_id := h; x509 := c |}.
  split; [reflexivity|]. split; [|reflexivity].
  unfold encode_ascii. rewrite list_byte_of_string_of_list_byte.
  now apply load_pem_public_bytes.
Qed.

(** C9.  The copy method does not look at its memo: with any two memos it
    returns the same result.  Nothing is remembered between calls either: a
    second call, whatever its memo, builds one more object around the same
    native certificate, and the native certificate it holds does not depend
    on the state in which the call is made. *)
Theorem deepcopy_ignores_memo {Memo1 Memo2 : Type}
    (c : Certificate) (memo1 : Memo1) (memo2 : Memo2) :
  (forall h, copy_method c memo1 h = copy_method c memo2 h)
  /\ (forall h h' first,
        copy_method c memo1 h = (Ok first, h') ->
        exists second,
          copy_method c memo2 h' = (Ok second, N.succ h')
          /\ x509 second = x509 first
          /\ object_id second <> object_id first)
  /\ (forall h1 h2 h1' h2' copy1 copy2,
        copy_method c memo1 h1 = (Ok copy1, h1') ->
        copy_method c memo2 h2 = (Ok copy2, h2') ->
        x509 copy1 = x509 copy2).
Proof.
  split; [reflexivity|]. split.
  - intros h h' first. rewrite !deepcopy_method_eq.
    destruct (d2i_X509 default_backend (der c)) as [x|]; [|discriminate].
    intros [= <- <-]. eexists. split; [reflexivity|].
    split; [reflexivity|]. cbn. lia.
  - intros h1 h2 h1' h2' copy1 copy2. rewrite !deepcopy_method_eq.
    destruct (d2i_X509 default_backend (der c)) as [x|]; [|discriminate].
    intros [= <- _] [= <- _]. reflexivity.
Qed.

End Copy.

Section Registration.

Variable get_public_key_sha256 : Certificate -> bytes.
Variable extract_dns_subject_alternative_names : Certificate -> list string.
Variable default_backend : Backend.

#[local] Abbreviation serialize :=
  (object_to_json get_public_key_sha256 extract_dns_subject_alternative_names).
#[local] Abbreviation get_handler := (dict_get (V:=func) cls_eqb).
#[local] Abbreviation get_attr := (dict_get (V:=func) String.eqb).

(** What one registration establishes. *)
Lemma register_once (p once : process) :
  register_json_serializer_functions p = Ok once ->
  get_handler (registry once) C_ObjectIdentifier = Some F_oid_to_json
  /\ get_handler (registry once) C_Certificate = Some F_certificate_to_json
  /\ get_attr (_Certificate_attrs once) "__deepcopy__"
     = Some (F_deepcopy_method_for_x509_certificate (next_closure p)).
Proof.
  rewrite register_eq. intros [= <-]. cbn [registry _Certificate_attrs].
  rewrite (get_set_other cls_eqb cls_eqb_eq) by discriminate.
  rewrite !(get_set_same cls_eqb cls_eqb_eq).
  now rewrite (get_set_same String.eqb String.eqb_eq).
Qed.

(** Registering again changes neither the registry nor the attribute names
    of the class; only the function object bound to [__deepcopy__] is a new
    one. *)
Lemma register_again (p once again : process) :
  register_json_serializer_functions p = Ok once ->
  register_json_serializer_functions once = Ok again ->
  registry again = registry once
  /\ dict_keys (_Certificate_attrs again) = dict_keys (_Certificate_attrs once)
  /\ get_attr (_Certificate_attrs again) "__deepcopy__"
     = Some (F_deepcopy_method_for_x509_certificate (next_closure once)).
Proof.
  intros H1 H2. destruct (register_once p once H1) as (Ho & Hc & Hd).
  rewrite register_eq in H2. injection H2 as <-.
  cbn [registry _Certificate_attrs]. repeat split.
  - rewrite (set_same_value cls_eqb _ _ _ Ho).
    now rewrite (set_same_value cls_eqb _ _ _ Hc).
  - apply (keys_set_present String.eqb String.eqb_eq).
    apply (get_in_keys String.eqb String.eqb_eq). rewrite Hd. discriminate.
  - apply (get_set_same String.eqb String.eqb_eq).
Qed.

Lemma register_times_ok (n : nat) (p once : process) :
  register_json_serializer_functions p = Ok once ->
  exists again,
    register_times (S n) p = Ok again
    /\ registry again = registry once
    /\ dict_keys (_Certificate_attrs again) = dict_keys (_Certificate_attrs once)
    /\ exists k, get_attr (_Certificate_attrs again) "__deepcopy__"
                 = Some (F_deepcopy_method_for_x509_certificate k).
Proof.
  revert p once. induction n as [|n IH]; intros p once H1.
  - exists once. cbn [register_times]. rewrite H1. cbn [bind].
    repeat split. destruct (register_once p once H1) as (_ & _ & Hd). eauto.
  - assert (H2 := register_eq once).
    destruct (IH once _ H2) as (again & Hr & Hreg & Hkeys & Hattr).
    destruct (register_again p once _ H1 H2) as (Hreg' & Hkeys' & _).
    exists again. split.
    + change (register_times (S (S n)) p)
        with (bind (register_json_serializer_functions p) (register_times (S n))).
      rewrite H1. exact Hr.
    + split; [congruence|]. split; [congruence|]. exact Hattr.
Qed.

(** C6.  Calling the registration function any number of times, once or
    more, leaves what one call leaves: the same registry, in which
    [ObjectIdentifier] and [Certificate] each have one handler, and one
    [__deepcopy__] on the certificate class; serializing and copying behave
    as after one call. *)
Theorem register_is_idempotent (p : process) (n : nat) :
  NoDup (dict_keys (registry p)) ->
  NoDup (dict_keys (_Certificate_attrs p)) ->
  exists once again,
    register_json_serializer_functions p = Ok once
    /\ register_times (S n) p = Ok again
    /\ registry again = registry once
    /\ get_handler (registry again) C_ObjectIdentifier = Some F_oid_to_json
    /\ get_handler (registry again) C_Certificate = Some F_certificate_to_json
    /\ dict_count cls_eqb (registry again) C_ObjectIdentifier = 1
    /\ dict_count cls_eqb (registry again) C_Certificate = 1
    /\ dict_keys (_Certificate_attrs again) = dict_keys (_Certificate_attrs once)
    /\ dict_count String.eqb (_Certificate_attrs again) "__deepcopy__" = 1
    /\ (forall o, serialize again o = serialize once o)
    /\ (forall (Memo : Type) (c : Certificate) (memo : Memo) (h : heap),
          deepcopy default_backend again c memo h
          = deepcopy default_backend once c memo h).
Proof.
  intros Hreg Hattrs.
  assert (H1 := register_eq p).
  destruct (register_times_ok n p _ H1) as (again & Hn & Hr & Hk & k & Hd).
  destruct (register_once p _ H1) as (Ho & Hc & Hd1).
  eexists _, again. split; [exact H1|]. split; [exact Hn|].
  split; [exact Hr|]. rewrite Hr. split; [exact Ho|]. split; [exact Hc|].
  assert (Hnd : NoDup (dict_keys
            (dict_set cls_eqb
               (dict_set cls_eqb (registry p) C_ObjectIdentifier F_oid_to_json)
               C_Certificate F_certificate_to_json)))
    by now repeat apply (nodup_keys_set cls_eqb cls_eqb_eq).
  split.
  { apply (count_one cls_eqb cls_eqb_eq); [exact Hnd|].
    apply (get_in_keys cls_eqb cls_eqb_eq).
    intros E. rewrite E in Ho. discriminate. }
  split.
  { apply (count_one cls_eqb cls_eqb_eq); [exact Hnd|].
    apply (get_in_keys cls_eqb cls_eqb_eq).
    intros E. rewrite E in Hc. discriminate. }
  split; [exact Hk|]. split.
  { apply (count_one String.eqb String.eqb_eq).
    - rewrite Hk. cbn [_Certificate_attrs].
      now apply (nodup_keys_set String.eqb String.eqb_eq).
    - apply (get_in_keys String.eqb String.eqb_eq). rewrite Hd. discriminate. }
  split.
  { intros o. unfold object_to_json. now rewrite Hr. }
  intros Memo c memo h. unfold deepcopy. now rewrite Hd, Hd1.
Qed.

End Registration.

(* ================================================================= *)
(** ** The properties on the samples *)

Module OnSamples.
Import Samples.

Lemma rsa_projection : to_json rsa_cert = Ok rsa_json.
Proof. vm_compute. reflexivity. Qed.

Lemma ec_projection : to_json ec_cert = Ok ec_json.
Proof. vm_compute. reflexivity. Qed.

Lemma negative_serial_projection :
  to_json negative_serial_cert = Ok negative_serial_json.
Proof. vm_compute. reflexivity. Qed.

Lemma rsa_other_class_projection :
  to_json rsa_cert_other_class = Ok rsa_other_class_json.
Proof. vm_compute. reflexivity. Qed.

Lemma certificate_to_json_keys_witness :
  to_json rsa_cert = Ok rsa_json
  /\ dict_keys rsa_json = mandatory_keys ++ ["subjectAlternativeName"]
  /\ (In "subjectAlternativeName" (dict_keys rsa_json)
      <-> dns_names_of_sample rsa_cert <> []).
Proof.
  split; [exact rsa_projection|].
  destruct (certificate_to_json_keys sha256_of_sample dns_names_of_sample
              rsa_cert rsa_json rsa_projection) as (Hkeys & Hsan & _).
  split; [exact Hkeys|exact Hsan].
Defined.

Lemma publicKey_has_curve_or_exponent_witness :
  to_json ec_cert = Ok ec_json
  /\ exists pk,
       sget ec_json "publicKey" = Some (VDict pk)
       /\ dict_keys pk = ["algorithm"; "size"; "curve"].
Proof.
  split; [exact ec_projection|].
  destruct (publicKey_has_curve_or_exponent sha256_of_sample
              dns_names_of_sample ec_cert ec_json ec_projection)
    as (pk & Hpk & Hkeys & _).
  exists pk. split; [exact Hpk|exact Hkeys].
Defined.

(** C3.  The projector raises on a certificate whose public key is a DSA
    key: the key is not an elliptic-curve key, it has a [key_size], and its
    public numbers have no [e].  It raises on an Ed25519 key as well, which
    has no [key_size]. *)
Theorem certificate_to_json_raises_on_dsa_key :
  is_EllipticCurvePublicKey (public_key dsa_cert) = false
  /\ to_json dsa_cert = Raise (AttributeError "DSAPublicNumbers" "e")
  /\ to_json ed25519_cert = Raise (AttributeError "_Ed25519PublicKey" "key_size").
Proof. repeat split. Qed.

(** C4, as stated, fails: the serial number -1 is rendered as ["-1"], which
    is not a string of decimal digits. *)
Lemma serialNumber_of_negative_serial_not_digits :
  field (to_json negative_serial_cert) "serialNumber" = Some (VStr "-1")
  /\ is_decimal_digit_string "-1" = false.
Proof. split; vm_compute; reflexivity. Qed.

Lemma numeric_fields_are_decimal_renderings_witness :
  to_json negative_serial_cert = Ok negative_serial_json
  /\ sget negative_serial_json "serialNumber" = Some (VStr (str_int (-1)))
  /\ is_decimal_rendering (str_int (-1)) = true
  /\ int_of_str (str_int (-1)) = Some (-1)%Z.
Proof.
  split; [exact negative_serial_projection|].
  destruct (numeric_fields_are_decimal_renderings sha256_of_sample
              dns_names_of_sample negative_serial_cert negative_serial_json
              negative_serial_projection) as (Hs & Hr & _ & Hi & _).
  split; [exact Hs|]. split; [exact Hr|exact Hi].
Defined.

Lemma sample_is_parsed : parsed sample_backend rsa_cert.
Proof. reflexivity. Qed.

Lemma deepcopy_is_pem_round_trip_witness :
  parsed sample_backend rsa_cert
  /\ (object_id rsa_cert < 10)%N
  /\ exists copy,
       _deepcopy_method_for_x509_certificate sample_backend rsa_cert tt 10%N
       = (Ok copy, 11%N)
       /\ object_id copy <> object_id rsa_cert
       /\ public_bytes copy PEM = public_bytes rsa_cert PEM.
Proof.
  split; [exact sample_is_parsed|]. split; [reflexivity|].
  destruct (deepcopy_is_pem_round_trip sample_backend sha256_of_sample
              dns_names_of_sample rsa_cert tt 10%N) as (_ & _ & H).
  destruct (H sample_is_parsed eq_refl) as (copy & Hc & Hid & _ & Hpem & _).
  exists copy. split; [exact Hc|]. split; [exact Hid|exact Hpem].
Defined.

Lemma fresh_registry_nodup : NoDup (dict_keys (registry fresh_process)).
Proof. repeat constructor. simpl. tauto. Qed.

Lemma fresh_attrs_nodup : NoDup (dict_keys (_Certificate_attrs fresh_process)).
Proof. constructor. Qed.

Lemma register_is_idempotent_witness :
  NoDup (dict_keys (registry fresh_process))
  /\ NoDup (dict_keys (_Certificate_attrs fresh_process))
  /\ exists once twice,
       register_json_serializer_functions fresh_process = Ok once
       /\ register_times 2 fresh_process = Ok twice
       /\ registry twice = registry once
       /\ dict_count cls_eqb (registry twice) C_ObjectIdentifier = 1
       /\ dict_count cls_eqb (registry twice) C_Certificate = 1
       /\ dict_count String.eqb (_Certificate_attrs twice) "__deepcopy__" = 1.
Proof.
  split; [exact fresh_registry_nodup|]. split; [exact fresh_attrs_nodup|].
  destruct (register_is_idempotent sha256_of_sample dns_names_of_sample
              sample_backend fresh_process 1 fresh_registry_nodup
              fresh_attrs_nodup)
    as (once & twice & H1 & H2 & Hr & _ & _ & Ho & Hc & _ & Hd & _).
  exists once, twice. repeat split; assumption.
Defined.

Lemma sample_dates_valid :
  datetime_valid (not_valid_before rsa_cert) = true
  /\ datetime_valid (not_valid_after rsa_cert) = true.
Proof. split; reflexivity. Qed.

Lemma validity_timestamps_format_witness :
  to_json rsa_cert = Ok rsa_json
  /\ datetime_valid (not_valid_before rsa_cert) = true
  /\ datetime_valid (not_valid_after rsa_cert) = true
  /\ exists before after,
       sget rsa_json "notBefore" = Some (VStr before)
       /\ sget rsa_json "notAfter" = Some (VStr after)
       /\ is_timestamp_shape before = true
       /\ is_timestamp_shape after = true.
Proof.
  split; [exact rsa_projection|]. split; [exact (proj1 sample_dates_valid)|].
  split; [exact (proj2 sample_dates_valid)|].
  destruct (validity_timestamps_format sha256_of_sample dns_names_of_sample
              rsa_cert rsa_json rsa_projection (proj1 sample_dates_valid)
              (proj2 sample_dates_valid))
    as (before & after & Hb & Ha & _ & _ & Hsb & Hsa & _).
  exists before, after. split; [exact Hb|]. split; [exact Ha|].
  split; [apply Hsb|apply Hsa]; discriminate.
Defined.

(** C8, as stated, fails: a validity that starts in the year 999 gives
    [notBefore] the text ["999-01-01 00:00:00"], which has eighteen
    characters and not the shape [YYYY-MM-DD HH:MM:SS]. *)
Lemma notBefore_of_year_999_not_timestamp_shape :
  datetime_valid (not_valid_before year_999_cert) = true
  /\ datetime_valid (not_valid_after year_999_cert) = true
  /\ field (to_json year_999_cert) "notBefore" = Some (VStr "999-01-01 00:00:00")
  /\ is_timestamp_shape "999-01-01 00:00:00" = false.
Proof. repeat split. Qed.

Lemma deepcopy_ignores_memo_witness :
  _deepcopy_method_for_x509_certificate sample_backend rsa_cert tt 10%N
  = _deepcopy_method_for_x509_certificate sample_backend rsa_cert
      [(7%N, ec_cert)] 10%N.
Proof.
  exact (proj1 (deepcopy_ignores_memo sample_backend rsa_cert tt
                  [(7%N, ec_cert)]) 10%N).
Defined.

Lemma algorithm_is_class_name_witness :
  to_json rsa_cert = Ok rsa_json
  /\ to_json rsa_cert_other_class = Ok rsa_other_class_json
  /\ variant (public_key rsa_cert) = variant (public_key rsa_cert_other_class)
  /\ sget2 rsa_json "publicKey" "algorithm" = Some (VStr "_RSAPublicKey")
  /\ sget2 rsa_json "publicKey" "algorithm"
     <> sget2 rsa_other_class_json "publicKey" "algorithm".
Proof.
  split; [exact rsa_projection|]. split; [exact rsa_other_class_projection|].
  split; [reflexivity|].
  destruct (algorithm_is_class_name sha256_of_sample dns_names_of_sample
              rsa_cert rsa_cert_other_class rsa_json rsa_other_class_json
              rsa_projection rsa_other_class_projection) as (H1 & _ & Hne).
  split; [exact H1|]. apply Hne; [reflexivity|discriminate].
Defined.

End OnSamples.

(* ================================================================= *)
(** ** Further facts about the runtime *)

Module MoreFacts.
Import Py PyFacts.

(** *** Length of base-64 text *)

Lemma b64encode_length (l : bytes) :
  List.length (b64encode l) = 4 * ((List.length l + 2) / 3).
Proof.
  induction l as [|a|a b|a b c r IH] using list_ind3; try reflexivity.
  change (b64encode (a :: b :: c :: r))
    with (b64_char (Byte.to_N a / 4)
          :: b64_char ((Byte.to_N a mod 4) * 16 + Byte.to_N b / 16)
          :: b64_char ((Byte.to_N b mod 16) * 4 + Byte.to_N c / 64)
          :: b64_char (Byte.to_N c mod 64) :: b64encode r)%N.
  cbn [List.length]. rewrite IH.
  replace (S (S (S (List.length r))) + 2) with (List.length r + 2 + 1 * 3) by lia.
  rewrite Nat.div_add by discriminate. lia.
Qed.

Lemma string_of_list_byte_length (l : bytes) :
  String.length (string_of_list_byte l) = List.length l.
Proof.
  unfold string_of_list_byte.
  induction l as [|b r IH]; simpl; [reflexivity|]. now rewrite IH.
Qed.

(** *** Reading padded numbers back *)

Lemma forall_below2 (P : N -> N -> bool) (k : N) :
  (let range := map N.of_nat (seq 0 (N.to_nat k)) in
   forallb (fun x => forallb (P x) range) range) = true ->
  forall x y, (x < k)%N -> (y < k)%N -> P x y = true.
Proof.
  cbv zeta. intros H x y Hx Hy.
  apply (forall_below (P x) k); [|exact Hy].
  apply (forall_below (fun x => forallb (P x) _) k H x Hx).
Qed.

Lemma read_zfill2 (n : N) :
  (n < 100)%N -> read_number (zfill 2 (str_N n)) = Some n.
Proof.
  intros Hn.
  assert (H : option_N_eqb (read_number (zfill 2 (str_N n))) n = true)
    by (apply (forall_below
                 (fun n => option_N_eqb (read_number (zfill 2 (str_N n))) n) 100);
        [vm_compute; reflexivity|exact Hn]).
  destruct (read_number (zfill 2 (str_N n))); [|discriminate].
  apply N.eqb_eq in H. now subst.
Qed.

Lemma read_zfill4 (n : N) :
  (n < 10000)%N -> read_number (zfill 4 (str_N n)) = Some n.
Proof.
  intros Hn.
  assert (H : option_N_eqb (read_number (zfill 4 (str_N n))) n = true)
    by (apply (forall_below
                 (fun n => option_N_eqb (read_number (zfill 4 (str_N n))) n) 10000);
        [vm_compute; reflexivity|exact Hn]).
  destruct (read_number (zfill 4 (str_N n))); [|discriminate].
  apply N.eqb_eq in H. now subst.
Qed.

(** Reading a formatted timestamp with a year of four digits gives the
    calendar fields back. *)
Lemma strptime_strftime (d : datetime) :
  datetime_valid d = true ->
  (1000 <= year d)%N ->
  strptime_timestamp (strftime d timestamp_format) = Some (calendar_fields d).
Proof.
  intros Hv Hyear. rewrite strftime_timestamp_padded by assumption.
  destruct (datetime_valid_bounds d Hv) as (Hy & Hm & Hd & Hh & Hn & Hs).
  pose proof (read_zfill4 _ Hy) as Ry. pose proof (read_zfill2 _ Hm) as Rm.
  pose proof (read_zfill2 _ Hd) as Rd. pose proof (read_zfill2 _ Hh) as Rh.
  pose proof (read_zfill2 _ Hn) as Rn. pose proof (read_zfill2 _ Hs) as Rs.
  destruct (four_digits_inv _ (zfill4_digits _ Hy))
    as (y1 & y2 & y3 & y4 & Ey & _).
  destruct (two_digits_inv _ (zfill2_digits _ Hm)) as (m1 & m2 & Em & _).
  destruct (two_digits_inv _ (zfill2_digits _ Hd)) as (d1 & d2 & Ed & _).
  destruct (two_digits_inv _ (zfill2_digits _ Hh)) as (h1 & h2 & Eh & _).
  destruct (two_digits_inv _ (zfill2_digits _ Hn)) as (n1 & n2 & En & _).
  destruct (two_digits_inv _ (zfill2_digits _ Hs)) as (s1 & s2 & Es & _).
  rewrite Ey in *. rewrite Em in *. rewrite Ed in *. rewrite Eh in *.
  rewrite En in *. rewrite Es in *.
  unfold read_number in *. cbn [list_ascii_of_string] in *.
  unfold strptime_timestamp.
  cbn [String.append list_ascii_of_string Ascii.eqb Bool.eqb andb].
  now rewrite Ry, Rm, Rd, Rh, Rn, Rs.
Qed.

(** *** Order of formatted timestamps *)

Lemma compare_append (a b s t : string) :
  String.length a = String.length b ->
  String.compare (a ++ s) (b ++ t)
  = compare_then (String.compare a b) (String.compare s t).
Proof.
  revert b. induction a as [|c a IH]; intros [|c' b]; simpl; try discriminate.
  - reflexivity.
  - intros [= Hl]. destruct (Ascii.compare c c'); auto.
Qed.

Lemma compare_same_head (c : ascii) (s t : string) :
  String.compare (String c s) (String c t) = String.compare s t.
Proof.
  simpl. unfold Ascii.compare. now rewrite N.compare_refl.
Qed.

Lemma zfill4_length (n : N) : (n < 10000)%N -> String.length (zfill 4 (str_N n)) = 4.
Proof.
  intros H.
  destruct (four_digits_inv _ (zfill4_digits _ H)) as (a & b & c & d & -> & _).
  reflexivity.
Qed.

Lemma comparison_eqb_eq (a b : comparison) : comparison_eqb a b = true -> a = b.
Proof. destruct a, b; simpl; congruence. Qed.

Lemma compare_zfill2 (x y : N) :
  (x < 100)%N -> (y < 100)%N ->
  String.compare (zfill 2 (str_N x)) (zfill 2 (str_N y)) = (x ?= y)%N.
Proof.
  intros Hx Hy. apply comparison_eqb_eq.
  apply (forall_below2
           (fun x y => comparison_eqb
                         (String.compare (zfill 2 (str_N x)) (zfill 2 (str_N y)))
                         (x ?= y)%N) 100); [vm_compute; reflexivity| |]; assumption.
Qed.

Lemma zfill4_split (n : N) :
  (n < 10000)%N ->
  zfill 4 (str_N n)
  = (zfill 2 (str_N (n / 100)) ++ zfill 2 (str_N (n mod 100)))%string.
Proof.
  intros Hn. apply String.eqb_eq.
  apply (forall_below
           (fun n => String.eqb (zfill 4 (str_N n))
                       (zfill 2 (str_N (n / 100)) ++ zfill 2 (str_N (n mod 100))))
           10000); [vm_compute; reflexivity|exact Hn].
Qed.

Lemma compare_hundreds (x y : N) :
  compare_then (x / 100 ?= y / 100)%N (x mod 100 ?= y mod 100)%N = (x ?= y)%N.
Proof.
  destruct (N.compare_spec (x / 100) (y / 100));
    destruct (N.compare_spec (x mod 100) (y mod 100));
    destruct (N.compare_spec x y); simpl; try reflexivity; exfalso;
    zify; Z.to_euclidean_division_equations; lia.
Qed.

Lemma compare_zfill4 (x y : N) :
  (x < 10000)%N -> (y < 10000)%N ->
  String.compare (zfill 4 (str_N x)) (zfill 4 (str_N y)) = (x ?= y)%N.
Proof.
  intros Hx Hy. rewrite (zfill4_split x Hx), (zfill4_split y Hy).
  assert (x / 100 < 100 /\ y / 100 < 100 /\ x mod 100 < 100 /\ y mod 100 < 100)%N
    as (? & ? & ? & ?)
    by (repeat split; zify; Z.to_euclidean_division_equations; lia).
  rewrite compare_append by now rewrite !zfill2_length.
  rewrite !compare_zfill2 by assumption. apply compare_hundreds.
Qed.

(** Formatted timestamps with years of four digits compare, as strings, the
    way the timestamps compare in time. *)
Lemma strftime_compare (a b : datetime) :
  datetime_valid a = true -> datetime_valid b = true ->
  (1000 <= year a)%N -> (1000 <= year b)%N ->
  String.compare (strftime a timestamp_format) (strftime b timestamp_format)
  = datetime_compare a b.
Proof.
  intros Ha Hb Hya Hyb. rewrite !strftime_timestamp_padded by assumption.
  destruct (datetime_valid_bounds a Ha) as (? & ? & ? & ? & ? & ?).
  destruct (datetime_valid_bounds b Hb) as (? & ? & ? & ? & ? & ?).
  unfold datetime_compare.
  rewrite compare_append by now rewrite !zfill4_length.
  rewrite compare_zfill4 by assumption. f_equal.
  do 4 (cbn [String.append]; rewrite compare_same_head;
        rewrite compare_append by (now rewrite !zfill2_length);
        rewrite compare_zfill2 by assumption; f_equal).
  cbn [String.append]. rewrite compare_same_head. now apply compare_zfill2.
Qed.

End MoreFacts.

(* ================================================================= *)
(** ** Further properties of the projector *)

Import MoreFacts.

Section ProjectorBehaviour.

Variable get_public_key_sha256 : Certificate -> bytes.
Variable extract_dns_subject_alternative_names : Certificate -> list string.

#[local] Abbreviation to_json :=
  (_certificate_to_json get_public_key_sha256
     extract_dns_subject_alternative_names).

(** X1.  Whenever the projector returns, each field holds what the source
    reads for it: the PEM text, the RFC 4514 strings of subject and issuer,
    the name of the signature hash algorithm and, in [publicKey], the size
    and name of the curve for an elliptic-curve key, the size and exponent
    of the key for an RSA key.  The assignments made through
    [result["publicKey"]] after the display reach the mapping stored in
    the result. *)
Theorem certificate_to_json_values (c : Certificate) (d : sdict) :
  to_json c = Ok d ->
  sget d "as_pem" = Some (VStr (string_of_list_byte (public_bytes c PEM)))
  /\ sget d "subject" = Some (VStr (rfc4514_string (subject c)))
  /\ sget d "issuer" = Some (VStr (rfc4514_string (issuer c)))
  /\ (exists alg,
        signature_hash_algorithm c = Some alg
        /\ sget d "signatureAlgorithm" = Some (VStr (hash_name alg)))
  /\ match variant (public_key c) with
     | EllipticCurvePublicKey cv _ _ =>
         sget2 d "publicKey" "size" = Some (VStr (str_N (curve_key_size cv)))
         /\ sget2 d "publicKey" "curve" = Some (VStr (curve_name cv))
     | RSAPublicKey s e _ =>
         sget2 d "publicKey" "size" = Some (VStr (str_N s))
         /\ sget2 d "publicKey" "exponent" = Some (VStr (str_int e))
     | _ => False
     end.
Proof.
  intros H. apply certificate_to_json_inv in H.
  destruct H as (alg & size & extra & Halg & Hkey & ->).
  split; [reflexivity|]. split; [reflexivity|]. split; [reflexivity|].
  split; [exists alg; split; [exact Halg|reflexivity]|].
  unfold described_key in Hkey.
  destruct (variant (public_key c)); try discriminate;
    injection Hkey as <- <-; split; reflexivity.
Qed.

(** X3.  A certificate with a DSA public key is never projected: whatever
    its other fields and its DNS names, once the display is built (the
    signature hash algorithm being there) the [else] branch reads the size
    of the key and then fails on the attribute [e] of its public numbers,
    so the call raises that [AttributeError] and returns no mapping. *)
Theorem certificate_to_json_raises_on_every_dsa_key
    (c : Certificate) (alg : HashAlgorithm) (s : N) (y p q g : Z) :
  signature_hash_algorithm c = Some alg ->
  variant (public_key c) = DSAPublicKey s y p q g ->
  to_json c = Raise (AttributeError "DSAPublicNumbers" "e")
  /\ key_size_of (public_key c) = Ok s
  /\ is_EllipticCurvePublicKey (public_key c) = false.
Proof.
  intros Halg Hkey. unfold _certificate_to_json.
  unfold public_bytes at 1. rewrite decode_ascii_pem, decode_utf8_b64encode.
  rewrite Halg. cbn [bind name_of].
  unfold is_EllipticCurvePublicKey, curve_of, key_size_of, public_numbers.
  rewrite Hkey.
  destruct (extract_dns_subject_alternative_names c) as [|nm nms];
    cbn; repeat split.
Qed.

(** X4.  The pin of a returned mapping is the base-64 text of the digest
    the utility gave: decoding it gives the digest back, and it has four
    characters for every three bytes of digest, the last group padded; for
    a digest of 32 bytes that is 44 characters. *)
Theorem hpkp_pin_round_trip (c : Certificate) (d : sdict) :
  to_json c = Ok d ->
  exists pin,
    sget d "hpkp_pin" = Some (VStr pin)
    /\ b64decode (encode_ascii pin) = Some (get_public_key_sha256 c)
    /\ String.length pin
       = 4 * ((List.length (get_public_key_sha256 c) + 2) / 3)
    /\ (List.length (get_public_key_sha256 c) = 32 -> String.length pin = 44).
Proof.
  intros H. apply certificate_to_json_inv in H.
  destruct H as (alg & size & extra & _ & _ & ->).
  eexists. split; [reflexivity|].
  unfold encode_ascii. rewrite list_byte_of_string_of_list_byte.
  split; [apply b64decode_b64encode|].
  rewrite string_of_list_byte_length, b64encode_length.
  split; [reflexivity|]. intros ->. reflexivity.
Qed.

(** X5.  From the year 1000 on, nothing of the validity timestamps is lost
    down to the second: reading [notBefore] and [notAfter] back with the
    format they were written with gives year, month, day, hour, minute and
    second of the two timestamps. *)
Theorem validity_timestamps_round_trip (c : Certificate) (d : sdict) :
  to_json c = Ok d ->
  datetime_valid (not_valid_before c) = true ->
  datetime_valid (not_valid_after c) = true ->
  (1000 <= year (not_valid_before c))%N ->
  (1000 <= year (not_valid_after c))%N ->
  exists before after,
    sget d "notBefore" = Some (VStr before)
    /\ sget d "notAfter" = Some (VStr after)
    /\ strptime_timestamp before = Some (calendar_fields (not_valid_before c))
    /\ strptime_timestamp after = Some (calendar_fields (not_valid_after c)).
Proof.
  intros H Hb Ha Hyb Hya. apply certificate_to_json_inv in H.
  destruct H as (alg & size & extra & _ & _ & ->).
  eexists _, _. split; [reflexivity|]. split; [reflexivity|].
  split; now apply strptime_strftime.
Qed.

(** X6.  From the year 1000 on, the timestamps of returned mappings compare
    as strings the way the calendar fields of the validity timestamps
    compare, which for the naive timestamps of a certificate is their order
    in time to the second: [notBefore] sorts before [notAfter] exactly when
    the validity starts before it ends, and the same holds between two
    certificates. *)
Theorem validity_timestamps_sort_chronologically
    (c1 c2 : Certificate) (d1 d2 : sdict) :
  to_json c1 = Ok d1 ->
  to_json c2 = Ok d2 ->
  datetime_valid (not_valid_before c1) = true ->
  datetime_valid (not_valid_after c1) = true ->
  datetime_valid (not_valid_before c2) = true ->
  (1000 <= year (not_valid_before c1))%N ->
  (1000 <= year (not_valid_after c1))%N ->
  (1000 <= year (not_valid_before c2))%N ->
  exists before1 after1 before2,
    sget d1 "notBefore" = Some (VStr before1)
    /\ sget d1 "notAfter" = Some (VStr after1)
    /\ sget d2 "notBefore" = Some (VStr before2)
    /\ String.compare before1 after1
       = datetime_compare (not_valid_before c1) (not_valid_after c1)
    /\ String.compare before1 before2
       = datetime_compare (not_valid_before c1) (not_valid_before c2).
Proof.
  intros H1 H2 Hb1 Ha1 Hb2 Hyb1 Hya1 Hyb2.
  apply certificate_to_json_inv in H1, H2.
  destruct H1 as (alg1 & size1 & extra1 & _ & _ & ->).
  destruct H2 as (alg2 & size2 & extra2 & _ & _ & ->).
  eexists _, _, _. split; [reflexivity|]. split; [reflexivity|].
  split; [reflexivity|]. split; now apply strftime_compare.
Qed.

(** X14.  A returned mapping is made of strings only, at every depth:
    its values are strings, a mapping of strings and a mapping to a list of
    strings; no integer is stored anywhere, so nothing in it can come out
    as a JSON number. *)
Theorem certificate_to_json_strings_only (c : Certificate) (d : sdict) :
  to_json c = Ok d -> strings_only (VDict d) = true.
Proof.
  intros H. apply certificate_to_json_inv in H.
  destruct H as (alg & size & extra & _ & Hkey & ->).
  assert (Hnames : forall l : list string, forallb strings_only (map VStr l) = true)
    by (induction l; simpl; auto).
  destruct (described_key_cases _ _ _ Hkey)
    as [(_ & cv & x & y & _ & _ & ->)|(_ & s & e & n & _ & _ & ->)];
    destruct (extract_dns_subject_alternative_names c) as [|nm nms];
    cbn; rewrite ?Hnames; reflexivity.
Qed.

End ProjectorBehaviour.

(* ================================================================= *)
(** ** Further properties of registration and of the copy method *)

Lemma existsb_cls_in (k : cls) (l : list cls) :
  existsb (cls_eqb k) l = true <-> In k l.
Proof.
  rewrite existsb_exists. split.
  - intros (x & Hin & Hx). apply cls_eqb_eq in Hx. now subst.
  - intros Hin. exists k. split; [exact Hin|]. now apply cls_eqb_eq.
Qed.

Lemma existsb_string_in (k : string) (l : list string) :
  existsb (String.eqb k) l = true <-> In k l.
Proof.
  rewrite existsb_exists. split.
  - intros (x & Hin & Hx). apply String.eqb_eq in Hx. now subst.
  - intros Hin. exists k. split; [exact Hin|]. apply String.eqb_refl.
Qed.

(** Keys after an assignment, whether the key was there or not. *)
Lemma keys_after_set_cls (r : dict cls func) (k : cls) (f : func) :
  dict_keys (dict_set cls_eqb r k f)
  = dict_keys r ++ (if existsb (cls_eqb k) (dict_keys r) then [] else [k]).
Proof.
  destruct (existsb (cls_eqb k) (dict_keys r)) eqn:E.
  - apply existsb_cls_in in E. rewrite app_nil_r.
    now apply (keys_set_present cls_eqb cls_eqb_eq).
  - apply (keys_set_absent cls_eqb cls_eqb_eq). intros Hin.
    apply existsb_cls_in in Hin. congruence.
Qed.

(** X7.  Registration touches nothing but its own entries: the handler of
    every class other than [ObjectIdentifier] and [Certificate] and every
    attribute of the certificate class other than [__deepcopy__] are as
    before, the entries that existed keep their places, and an entry that
    did not exist is added at the end. *)
Theorem register_keeps_other_entries (p p' : process) :
  register_json_serializer_functions p = Ok p' ->
  (forall k, k <> C_ObjectIdentifier -> k <> C_Certificate ->
     dict_get cls_eqb (registry p') k = dict_get cls_eqb (registry p) k)
  /\ (forall a, a <> "__deepcopy__" ->
        dict_get String.eqb (_Certificate_attrs p') a
        = dict_get String.eqb (_Certificate_attrs p) a)
  /\ dict_keys (registry p') = dict_keys (registry p) ++ unregistered (registry p)
  /\ dict_keys (_Certificate_attrs p')
     = dict_keys (_Certificate_attrs p)
       ++ (if existsb (String.eqb "__deepcopy__")
                (dict_keys (_Certificate_attrs p))
           then [] else ["__deepcopy__"]).
Proof.
  rewrite register_eq. intros [= <-]. cbn [registry _Certificate_attrs].
  split.
  { intros k Ho Hc.
    now rewrite !(get_set_other cls_eqb cls_eqb_eq) by assumption. }
  split.
  { intros a Ha. now rewrite (get_set_other String.eqb String.eqb_eq). }
  split.
  - rewrite !keys_after_set_cls. unfold unregistered. cbn [filter].
    rewrite existsb_app. cbn [existsb].
    destruct (existsb (cls_eqb C_ObjectIdentifier) (dict_keys (registry p)));
      destruct (existsb (cls_eqb C_Certificate) (dict_keys (registry p)));
      cbn; now rewrite <- ?app_assoc, ?app_nil_r.
  - destruct (existsb (String.eqb "__deepcopy__")
                (dict_keys (_Certificate_attrs p))) eqn:E.
    + apply existsb_string_in in E. rewrite app_nil_r.
      now apply (keys_set_present String.eqb String.eqb_eq).
    + apply (keys_set_absent String.eqb String.eqb_eq). intros Hin.
      apply existsb_string_in in Hin. congruence.
Qed.

(** X13.  Registration is not a no-op when repeated: every call creates a
    function object and binds [__deepcopy__] to it, so after [n+1] calls
    the attribute holds the object created by the last call, and two
    consecutive calls never leave the same object there. *)
Theorem register_rebinds_deepcopy (n : nat) (p p' : process) :
  register_times (S n) p = Ok p' ->
  next_closure p' = (next_closure p + N.of_nat (S n))%N
  /\ dict_get String.eqb (_Certificate_attrs p') "__deepcopy__"
     = Some (F_deepcopy_method_for_x509_certificate
               (next_closure p + N.of_nat n))
  /\ (forall p'',
        register_json_serializer_functions p' = Ok p'' ->
        dict_get String.eqb (_Certificate_attrs p'') "__deepcopy__"
        <> dict_get String.eqb (_Certificate_attrs p') "__deepcopy__").
Proof.
  revert p. induction n as [|n IH]; intros p H.
  - cbn [register_times] in H. rewrite register_eq in H. cbn [bind] in H.
    injection H as <-. cbn [next_closure _Certificate_attrs].
    rewrite (get_set_same String.eqb String.eqb_eq).
    split; [lia|]. split; [now rewrite N.add_0_r|].
    intros p''. rewrite register_eq. intros [= <-].
    cbn [next_closure _Certificate_attrs].
    rewrite (get_set_same String.eqb String.eqb_eq).
    intros [= E]. lia.
  - change (register_times (S (S n)) p)
      with (bind (register_json_serializer_functions p) (register_times (S n)))
      in H.
    rewrite register_eq in H. cbn [bind] in H.
    destruct (IH _ H) as (Hn & Hd & Hne). cbn [next_closure] in Hn, Hd.
    split; [lia|]. split; [|exact Hne].
    rewrite Hd. do 2 f_equal. lia.
Qed.

Section CopyBehaviour.

Variable default_backend : Backend.
Variable get_public_key_sha256 : Certificate -> bytes.
Variable extract_dns_subject_alternative_names : Certificate -> list string.

#[local] Abbreviation copy_method :=
  (_deepcopy_method_for_x509_certificate default_backend).
#[local] Abbreviation to_json :=
  (_certificate_to_json get_public_key_sha256
     extract_dns_subject_alternative_names).
#[local] Abbreviation serialize :=
  (object_to_json get_public_key_sha256 extract_dns_subject_alternative_names).

(** X12.  The copy of a certificate delivered by the parser agrees with it
    in every field, is itself a certificate the parser delivers, and can be
    copied in turn; the two copies are different objects. *)
Theorem deepcopy_of_a_copy {Memo : Type}
    (c : Certificate) (memo : Memo) (h : heap) :
  parsed default_backend c ->
  exists first second,
    copy_method c memo h = (Ok first, N.succ h)
    /\ copy_method first memo (N.succ h) = (Ok second, N.succ (N.succ h))
    /\ x509 first = x509 c
    /\ x509 second = x509 c
    /\ parsed default_backend first
    /\ object_id first <> object_id second.
Proof.
  intros Hp. unfold parsed in Hp.
  exists {| object_id := h; x509 := c |},
         {| object_id := N.succ h; x509 := c |}.
  rewrite !deepcopy_method_eq. cbn [x509 object_id]. rewrite Hp.
  repeat split; [exact Hp|lia].
Qed.

(** X8.  Registration is what makes certificates copyable: while the class
    has no [__deepcopy__], [copy.deepcopy] of a certificate raises a
    [TypeError] and creates no object; once registration has run, it returns
    a new object around the same native certificate, for every certificate
    delivered by the parser. *)
Theorem deepcopy_needs_registration {Memo : Type}
    (p p' : process) (c : Certificate) (memo : Memo) (h : heap) :
  dict_get String.eqb (_Certificate_attrs p) "__deepcopy__" = None ->
  register_json_serializer_functions p = Ok p' ->
  parsed default_backend c ->
  (exists msg,
     deepcopy default_backend p c memo h = (Raise (TypeError msg), h))
  /\ deepcopy default_backend p' c memo h
     = (Ok {| object_id := h; x509 := c |}, N.succ h).
Proof.
  intros Hnone Hr Hp. split.
  - unfold deepcopy. rewrite Hnone. eexists. reflexivity.
  - rewrite (deepcopy_after_register default_backend p p' c memo Hr).
    rewrite deepcopy_method_eq. now rewrite Hp.
Qed.

(** X9.  After registration the generic serializer uses the two projectors,
    whatever was registered for these classes before: an object identifier
    becomes its dotted string, a certificate becomes the mapping of
    [_certificate_to_json], and an exception of the projector comes out
    unchanged. *)
Theorem object_to_json_after_register (p p' : process) :
  register_json_serializer_functions p = Ok p' ->
  (forall oid, serialize p' (ObjOid oid) = Ok (VStr (dotted_string oid)))
  /\ (forall c d, to_json c = Ok d ->
        serialize p' (ObjCertificate c) = Ok (VDict d))
  /\ (forall c e, to_json c = Raise e ->
        serialize p' (ObjCertificate c) = Raise e).
Proof.
  rewrite register_eq. intros [= <-]. unfold object_to_json.
  cbn [registry class_of].
  rewrite (get_set_other cls_eqb cls_eqb_eq) by discriminate.
  rewrite !(get_set_same cls_eqb cls_eqb_eq).
  split; [reflexivity|]. cbn [call_handler].
  split; intros c x Hx; now rewrite Hx.
Qed.

(** The projection reads the certificate object through its native
    certificate and the two utilities only. *)
Lemma certificate_to_json_native (a b : Certificate) :
  reads_native_certificate get_public_key_sha256 ->
  reads_native_certificate extract_dns_subject_alternative_names ->
  x509 a = x509 b ->
  to_json a = to_json b.
Proof.
  intros Hs Hd Hx. unfold _certificate_to_json.
  now rewrite (Hs a b Hx), (Hd a b Hx), Hx.
Qed.

(** X10.  Copying and then serializing gives what serializing gives: when
    the two utilities read nothing but the native certificate, the mapping
    (or the exception) obtained for the copy that [copy.deepcopy] makes of a
    parser-delivered certificate is the one obtained for the original. *)
Theorem serializing_a_copy {Memo : Type}
    (p p' : process) (c : Certificate) (memo : Memo) (h : heap) :
  reads_native_certificate get_public_key_sha256 ->
  reads_native_certificate extract_dns_subject_alternative_names ->
  register_json_serializer_functions p = Ok p' ->
  parsed default_backend c ->
  exists copy,
    deepcopy default_backend p' c memo h = (Ok copy, N.succ h)
    /\ to_json copy = to_json c
    /\ serialize p' (ObjCertificate copy) = serialize p' (ObjCertificate c).
Proof.
  intros Hs Hd Hr Hp.
  exists {| object_id := h; x509 := c |}.
  assert (E : to_json {| object_id := h; x509 := c |} = to_json c)
    by now apply certificate_to_json_native.
  split.
  - rewrite (deepcopy_after_register default_backend p p' c memo Hr).
    rewrite deepcopy_method_eq. now rewrite Hp.
  - split; [exact E|].
    unfold object_to_json. cbn [class_of].
    destruct (dict_get cls_eqb (registry p') C_Certificate) as [f|];
      [|reflexivity].
    destruct f; cbn [call_handler]; try reflexivity. now rewrite E.
Qed.

End CopyBehaviour.

(* ================================================================= *)
(** ** The further properties on the samples *)

Module OnMoreSamples.
Import Samples MoreSamples OnSamples.

Lemma sample_digest_reads_native : reads_native_certificate sha256_of_sample.
Proof. intros a b H. unfold sha256_of_sample. now rewrite H. Qed.

Lemma sample_names_read_native : reads_native_certificate dns_names_of_sample.
Proof. intros a b H. unfold dns_names_of_sample. now rewrite H. Qed.

Lemma fresh_registration :
  register_json_serializer_functions fresh_process = Ok fresh_process_registered.
Proof. reflexivity. Qed.

Lemma busy_registration :
  register_json_serializer_functions busy_process = Ok busy_process_registered.
Proof. reflexivity. Qed.

Lemma certificate_to_json_values_witness :
  to_json ec_cert = Ok ec_json
  /\ sget ec_json "subject" = Some (VStr "CN=ec.test")
  /\ sget2 ec_json "publicKey" "size" = Some (VStr (str_N 256))
  /\ sget2 ec_json "publicKey" "curve" = Some (VStr "secp256r1").
Proof.
  split; [exact ec_projection|].
  destruct (certificate_to_json_values sha256_of_sample dns_names_of_sample
              ec_cert ec_json ec_projection) as (_ & Hs & _ & _ & Hk).
  cbn in Hk. destruct Hk as [Hsize Hcurve].
  split; [exact Hs|]. split; [exact Hsize|exact Hcurve].
Defined.

Lemma certificate_to_json_raises_on_every_dsa_key_witness :
  signature_hash_algorithm dsa_cert = Some sha256
  /\ variant (public_key dsa_cert) = DSAPublicKey 2048 4 23 11 2
  /\ to_json dsa_cert = Raise (AttributeError "DSAPublicNumbers" "e").
Proof.
  split; [reflexivity|]. split; [reflexivity|].
  exact (proj1 (certificate_to_json_raises_on_every_dsa_key sha256_of_sample
                  dns_names_of_sample dsa_cert sha256 2048 4 23 11 2
                  eq_refl eq_refl)).
Defined.

Lemma certificate_to_json_strings_only_witness :
  to_json rsa_cert = Ok rsa_json /\ strings_only (VDict rsa_json) = true.
Proof.
  split; [exact rsa_projection|].
  exact (certificate_to_json_strings_only sha256_of_sample dns_names_of_sample
           rsa_cert rsa_json rsa_projection).
Defined.

Lemma sample_digest_length : List.length (sha256_of_sample rsa_cert) = 32.
Proof. reflexivity. Qed.

Lemma hpkp_pin_round_trip_witness :
  to_json rsa_cert = Ok rsa_json
  /\ exists pin,
       sget rsa_json "hpkp_pin" = Some (VStr pin)
       /\ b64decode (encode_ascii pin) = Some (sha256_of_sample rsa_cert)
       /\ String.length pin = 44.
Proof.
  split; [exact rsa_projection|].
  destruct (hpkp_pin_round_trip sha256_of_sample dns_names_of_sample
              rsa_cert rsa_json rsa_projection) as (pin & Hp & Hd & _ & Hl).
  exists pin. split; [exact Hp|]. split; [exact Hd|].
  exact (Hl sample_digest_length).
Defined.

Lemma validity_timestamps_round_trip_witness :
  to_json rsa_cert = Ok rsa_json
  /\ datetime_valid (not_valid_before rsa_cert) = true
  /\ datetime_valid (not_valid_after rsa_cert) = true
  /\ (1000 <= year (not_valid_before rsa_cert))%N
  /\ (1000 <= year (not_valid_after rsa_cert))%N
  /\ exists before after,
       sget rsa_json "notBefore" = Some (VStr before)
       /\ sget rsa_json "notAfter" = Some (VStr after)
       /\ strptime_timestamp before = Some (2020, 1, 1, 0, 0, 0)%N
       /\ strptime_timestamp after = Some (2021, 3, 9, 23, 59, 7)%N.
Proof.
  split; [exact rsa_projection|]. split; [exact (proj1 sample_dates_valid)|].
  split; [exact (proj2 sample_dates_valid)|].
  split; [discriminate|]. split; [discriminate|].
  apply (validity_timestamps_round_trip sha256_of_sample dns_names_of_sample
           rsa_cert rsa_json rsa_projection (proj1 sample_dates_valid)
           (proj2 sample_dates_valid)); discriminate.
Defined.

Lemma validity_timestamps_sort_chronologically_witness :
  to_json rsa_cert = Ok rsa_json
  /\ to_json ec_cert = Ok ec_json
  /\ (1000 <= year (not_valid_before rsa_cert))%N
  /\ (1000 <= year (not_valid_after rsa_cert))%N
  /\ (1000 <= year (not_valid_before ec_cert))%N
  /\ exists before1 after1 before2,
       sget rsa_json "notBefore" = Some (VStr before1)
       /\ sget rsa_json "notAfter" = Some (VStr after1)
       /\ sget ec_json "notBefore" = Some (VStr before2)
       /\ String.compare before1 after1 = Lt
       /\ String.compare before1 before2 = Eq.
Proof.
  split; [exact rsa_projection|]. split; [exact ec_projection|].
  split; [discriminate|]. split; [discriminate|]. split; [discriminate|].
  apply (validity_timestamps_sort_chronologically sha256_of_sample
           dns_names_of_sample rsa_cert ec_cert rsa_json ec_json
           rsa_projection ec_projection (proj1 sample_dates_valid)
           (proj2 sample_dates_valid) (proj1 sample_dates_valid));
    discriminate.
Defined.

Lemma register_keeps_other_entries_witness :
  register_json_serializer_functions busy_process = Ok busy_process_registered
  /\ dict_get cls_eqb (registry busy_process_registered) (C_other "pathlib.Path")
     = Some (F_other "_path_to_json")
  /\ dict_get String.eqb (_Certificate_attrs busy_process_registered) "__repr__"
     = Some (F_other "_Certificate.__repr__")
  /\ dict_keys (registry busy_process_registered)
     = dict_keys (registry busy_process) ++ [C_ObjectIdentifier].
Proof.
  split; [exact busy_registration|].
  destruct (register_keeps_other_entries busy_process busy_process_registered
              busy_registration) as (Hh & Ha & Hk & _).
  split; [rewrite Hh by discriminate; reflexivity|].
  split; [rewrite Ha by discriminate; reflexivity|exact Hk].
Defined.

Lemma fresh_registration_twice :
  register_times 2 fresh_process = Ok fresh_process_registered_twice.
Proof. reflexivity. Qed.

Lemma register_rebinds_deepcopy_witness :
  register_times 2 fresh_process = Ok fresh_process_registered_twice
  /\ next_closure fresh_process_registered_twice = 2%N
  /\ dict_get String.eqb (_Certificate_attrs fresh_process_registered_twice)
       "__deepcopy__"
     = Some (F_deepcopy_method_for_x509_certificate 1).
Proof.
  split; [exact fresh_registration_twice|].
  destruct (register_rebinds_deepcopy 1 fresh_process
              fresh_process_registered_twice fresh_registration_twice)
    as (Hn & Hd & _).
  split; [exact Hn|exact Hd].
Defined.

Lemma deepcopy_of_a_copy_witness :
  parsed sample_backend rsa_cert
  /\ exists first second,
       _deepcopy_method_for_x509_certificate sample_backend rsa_cert tt 10%N
       = (Ok first, 11%N)
       /\ _deepcopy_method_for_x509_certificate sample_backend first tt 11%N
          = (Ok second, 12%N)
       /\ x509 second = x509 rsa_cert
       /\ object_id first <> object_id second.
Proof.
  split; [exact sample_is_parsed|].
  destruct (deepcopy_of_a_copy sample_backend rsa_cert tt 10%N sample_is_parsed)
    as (first & second & H1 & H2 & _ & Hx & _ & Hid).
  exists first, second. repeat split; assumption.
Defined.

Lemma fresh_has_no_deepcopy :
  dict_get String.eqb (_Certificate_attrs fresh_process) "__deepcopy__" = None.
Proof. reflexivity. Qed.

Lemma deepcopy_needs_registration_witness :
  dict_get String.eqb (_Certificate_attrs fresh_process) "__deepcopy__" = None
  /\ register_json_serializer_functions fresh_process = Ok fresh_process_registered
  /\ parsed sample_backend rsa_cert
  /\ (exists msg,
        deepcopy sample_backend fresh_process rsa_cert tt 10%N
        = (Raise (TypeError msg), 10%N))
  /\ deepcopy sample_backend fresh_process_registered rsa_cert tt 10%N
     = (Ok {| object_id := 10; x509 := rsa_cert |}, N.succ 10).
Proof.
  split; [exact fresh_has_no_deepcopy|]. split; [exact fresh_registration|].
  split; [exact sample_is_parsed|].
  exact (deepcopy_needs_registration sample_backend fresh_process
           fresh_process_registered rsa_cert tt 10%N fresh_has_no_deepcopy
           fresh_registration sample_is_parsed).
Defined.

Lemma object_to_json_after_register_witness :
  register_json_serializer_functions busy_process = Ok busy_process_registered
  /\ object_to_json sha256_of_sample dns_names_of_sample busy_process_registered
       (ObjCertificate rsa_cert) = Ok (VDict rsa_json)
  /\ object_to_json sha256_of_sample dns_names_of_sample busy_process_registered
       (ObjCertificate dsa_cert)
     = Raise (AttributeError "DSAPublicNumbers" "e").
Proof.
  split; [exact busy_registration|].
  destruct (object_to_json_after_register sha256_of_sample dns_names_of_sample
              busy_process busy_process_registered busy_registration)
    as (_ & Hok & Hraise).
  split; [exact (Hok rsa_cert rsa_json rsa_projection)|].
  apply Hraise. reflexivity.
Defined.

Lemma serializing_a_copy_witness :
  reads_native_certificate sha256_of_sample
  /\ reads_native_certificate dns_names_of_sample
  /\ register_json_serializer_functions fresh_process = Ok fresh_process_registered
  /\ parsed sample_backend rsa_cert
  /\ exists copy,
       deepcopy sample_backend fresh_process_registered rsa_cert tt 10%N
       = (Ok copy, N.succ 10)
       /\ to_json copy = to_json rsa_cert.
Proof.
  split; [exact sample_digest_reads_native|].
  split; [exact sample_names_read_native|].
  split; [exact fresh_registration|]. split; [exact sample_is_parsed|].
  destruct (serializing_a_copy sample_backend sha256_of_sample
              dns_names_of_sample fresh_process fresh_process_registered
              rsa_cert tt 10%N sample_digest_reads_native
              sample_names_read_native fresh_registration sample_is_parsed)
    as (copy & Hc & Hj & _).
  exists copy. split; [exact Hc|exact Hj].
Defined.

End OnMoreSamples.
